(** * The JOS kernel monitor (kern/monitor.c)

    A shallow embedding of the command-line kernel monitor: the command
    table, the page diagnostic commands, the frame-pointer backtrace, the
    in-place tokenizer of [runcmd], the dispatch loop and the read-eval
    loop of [monitor].

    The monitor is stateful C.  Its handlers are embedded in a small
    state-and-failure monad over a [Kernel] record (page table, the static
    [info] record, the console, the stack memory).  Functions the file
    calls but does not define (the page allocator, [strtol],
    [debuginfo_eip]) are the fields of the class [Extern]: every handler
    is generic in them. *)

From Stdlib Require Import ZArith List String Ascii Bool Lia PeanoNat.
From stdpp Require Import base list.
Import ListNotations.

Open Scope string_scope.
Open Scope Z_scope.
Open Scope list_scope.

(** ** Machine integers *)

(** [uint32_t]: values wrap modulo 2^32. *)
Definition uint32 (z : Z) : Z := z mod 2 ^ 32.

(** [uint16_t]: values wrap modulo 2^16. *)
Definition uint16 (z : Z) : Z := z mod 2 ^ 16.

(** ** Console output

    [cprintf] is not expanded: a call is recorded with its format string
    and its arguments, in order. *)

Inductive arg : Type :=
| ArgInt (z : Z)
| ArgStr (s : option string)   (* a [char *]; [None] is the null pointer *)
| ArgChr (c : ascii).

Record event : Type := Cprintf { fmt : string; args : list arg }.

(** ** Data declared in headers *)

(** Modelled from the spec: [struct Eipdebuginfo] is declared in
    kern/kdebug.h, not in this file.  It is the spec's debug info record
    (function name, possibly absent, source line, file name); the monitor
    reads the fields [eip_fn_name] and [eip_line]. *)
Record Eipdebuginfo : Type := {
  eip_file : option string;
  eip_line : Z;
  eip_fn_name : option string;
  eip_fn_namelen : Z;
  eip_fn_addr : Z;
  eip_fn_narg : Z
}.

(** [static struct Eipdebuginfo info = {0};] *)
Definition info_zero : Eipdebuginfo :=
  {| eip_file := None; eip_line := 0; eip_fn_name := None;
     eip_fn_namelen := 0; eip_fn_addr := 0; eip_fn_narg := 0 |}.

(** Modelled from the spec: [struct PageInfo] is declared in
    inc/memlayout.h, not in this file.  It is the spec's page descriptor:
    a reference count, the physical address being implicit in the table
    position; [pp_link] stands for what else the allocator keeps in it. *)
Record PageInfo : Type := { pp_link : option nat; pp_ref : Z }.

(** Modelled from the spec: the allocator's state lives in kern/pmap.c,
    not in this file: the descriptor table and the allocator's own
    free-list structure. *)
Record Pmap : Type := { pages : list PageInfo; page_free_list : option nat }.

(** Modelled from the spec: [struct Trapframe] is declared in inc/trap.h,
    not in this file.  The handlers receive the pointer (the spec's
    trap/register-state context) and never read through it. *)
Definition Trapframe : Type := Z.

(** ** Kernel state seen by the monitor *)

Record Kernel : Type := {
  pmap : Pmap;
  info : Eipdebuginfo;         (* the file's static [info] *)
  console : list event;        (* what [cprintf] has printed so far *)
  stack : Z -> Z;              (* 32-bit word stored at a byte address *)
  ebp : Z;                     (* what [read_ebp()] yields in [mon_backtrace] *)
  eip : Z                      (* what [read_eip()] yields in [mon_backtrace] *)
}.

Definition set_pmap (p : Pmap) (k : Kernel) : Kernel :=
  {| pmap := p; info := info k; console := console k;
     stack := stack k; ebp := ebp k; eip := eip k |}.

Definition set_info (i : Eipdebuginfo) (k : Kernel) : Kernel :=
  {| pmap := pmap k; info := i; console := console k;
     stack := stack k; ebp := ebp k; eip := eip k |}.

Definition set_console (c : list event) (k : Kernel) : Kernel :=
  {| pmap := pmap k; info := info k; console := c;
     stack := stack k; ebp := ebp k; eip := eip k |}.

(** ** The monad of handlers

    A computation either returns a value, or stops the kernel ([Panic]: a
    lookup did not hand back a descriptor), or is still running when the
    loop budget is used up ([OutOfFuel]). *)

Inductive Res (A : Type) : Type :=
| Ok (a : A) (k : Kernel)
| Panic (k : Kernel)
| OutOfFuel (k : Kernel).

Arguments Ok {A} a k.
Arguments Panic {A} k.
Arguments OutOfFuel {A} k.

Definition M (A : Type) : Type := Kernel -> Res A.

Definition ret {A : Type} (a : A) : M A := fun k => Ok a k.

Definition bind {A B : Type} (m : M A) (f : A -> M B) : M B :=
  fun k => match m k with
           | Ok a k' => f a k'
           | Panic k' => Panic k'
           | OutOfFuel k' => OutOfFuel k'
           end.

Notation "x <- m ;; f" := (bind m (fun x => f))
  (at level 100, m at next level, right associativity).
Notation "m ;;; f" := (bind m (fun _ => f))
  (at level 100, right associativity).

Definition get {A : Type} (f : Kernel -> A) : M A := fun k => Ok (f k) k.

Definition panic {A : Type} : M A := fun k => Panic k.

Definition out_of_fuel {A : Type} : M A := fun k => OutOfFuel k.

Definition cprintf (f : string) (a : list arg) : M unit :=
  fun k => Ok tt (set_console (console k ++ [Cprintf f a]) k).

(** The state a computation stops in, whatever the way it stops. *)
Definition final {A : Type} (r : Res A) : Kernel :=
  match r with Ok _ k | Panic k | OutOfFuel k => k end.

(** ** External functions

    Defined in other files of the kernel (kern/pmap.c, kern/kdebug.c,
    lib/string.c) and in the linker script. *)

Class Extern : Type := {
  (* [strtol(s, 0, base)]: the end pointer is always null here *)
  strtol : string -> Z -> Z;
  (* [page_alloc(&pp)]: return code, the descriptor stored, new state *)
  page_alloc : Pmap -> Z * nat * Pmap;
  page2pa : Pmap -> nat -> Z;
  (* [pa2page(pa)]: [None] when the address names no descriptor *)
  pa2page : Pmap -> Z -> option nat;
  page_decref : Pmap -> nat -> Pmap;
  (* [debuginfo_eip(addr, &info)]: return code and the record it leaves *)
  debuginfo_eip : Z -> Eipdebuginfo -> Z * Eipdebuginfo;
  sym_start : Z;
  sym_entry : Z;
  sym_etext : Z;
  sym_edata : Z;
  sym_end : Z;
  KERNBASE : Z;
  COLOR_GRN : Z;
  (* the macro [ROUNDUP(a, n)] of inc/types.h *)
  ROUNDUP : Z -> Z -> Z
}.

(** Modelled from the spec: [strcmp] is defined in lib/string.c, not in
    this file.  The dispatcher tests [strcmp(a, b) == 0], the spec's
    exact, case-sensitive string match: the result is the difference of
    the first two characters that differ, the terminator counting as 0.
    A [string] holds the characters before the terminator. *)
Fixpoint strcmp (p q : string) : Z :=
  match p, q with
  | EmptyString, EmptyString => 0
  | EmptyString, String d _ => 0 - Z.of_nat (nat_of_ascii d)
  | String c _, EmptyString => Z.of_nat (nat_of_ascii c)
  | String c p', String d q' =>
      if Ascii.eqb c d then strcmp p' q'
      else Z.of_nat (nat_of_ascii c) - Z.of_nat (nat_of_ascii d)
  end.

(** Modelled from the spec: [strchr] is defined in lib/string.c, not in
    this file.  [strchr(set, c)] is non-null exactly when [c] occurs in
    [set]; the tokenizer uses it to test membership in the whitespace
    set. *)
Definition strchr (set : list ascii) (c : ascii) : bool :=
  existsb (Ascii.eqb c) set.

(** ** Basic monitor commands *)

Definition NUL : ascii := Ascii.zero.

(** The handlers are defined before the table that lists them; [mon_help]
    reads the names and descriptions of the table, which
    [commands_info] below shows to be these. *)
Definition command_info : list (string * string) :=
  [ ("help", "Display this list of commands");
    ("kerninfo", "Display information about the kernel");
    ("alloc_page", "Display the address of allocated page");
    ("page_status", "Display the status of the page");
    ("free_page", "Free the page, successfully or not");
    ("backtrace", "Backtrace the function call") ].

(** [pp->pp_ref] through a descriptor pointer; a pointer outside the
    table stops the kernel. *)
Definition read_pp_ref (pp : nat) : M Z :=
  fun k => match pages (pmap k) !! pp with
           | Some pg => Ok (pp_ref pg) k
           | None => Panic k
           end.

(** [pp->pp_ref++] on the 16-bit counter. *)
Definition incr_pp_ref (pp : nat) : M unit :=
  fun k => match pages (pmap k) !! pp with
           | Some pg =>
               let pg' := {| pp_link := pp_link pg;
                             pp_ref := uint16 (pp_ref pg + 1) |} in
               Ok tt (set_pmap {| pages := <[pp := pg']> (pages (pmap k));
                                  page_free_list := page_free_list (pmap k) |} k)
           | None => Panic k
           end.

Section Handlers.

Context {E : Extern}.

(** The [for] loop of [mon_help] over the table rows. *)
Fixpoint mon_help_loop (rows : list (string * string)) : M unit :=
  match rows with
  | [] => ret tt
  | (n, d) :: rows' =>
      cprintf "%s - %s\n" [ArgStr (Some n); ArgStr (Some d)] ;;;
      mon_help_loop rows'
  end.

Definition mon_help (fuel : nat) (argc : Z) (argv : list string)
    (tf : Trapframe) : M Z :=
  mon_help_loop command_info ;;;
  ret 0.

Definition mon_kerninfo (fuel : nat) (argc : Z) (argv : list string)
    (tf : Trapframe) : M Z :=
  cprintf "Special kernel symbols:\n" [] ;;;
  cprintf "  _start                  %08x (phys)\n" [ArgInt sym_start] ;;;
  cprintf "  entry  %08x (virt)  %08x (phys)\n"
    [ArgInt sym_entry; ArgInt (uint32 (sym_entry - KERNBASE))] ;;;
  cprintf "  etext  %08x (virt)  %08x (phys)\n"
    [ArgInt sym_etext; ArgInt (uint32 (sym_etext - KERNBASE))] ;;;
  cprintf "  edata  %08x (virt)  %08x (phys)\n"
    [ArgInt sym_edata; ArgInt (uint32 (sym_edata - KERNBASE))] ;;;
  cprintf "  end    %08x (virt)  %08x (phys)\n"
    [ArgInt sym_end; ArgInt (uint32 (sym_end - KERNBASE))] ;;;
  cprintf "Kernel executable memory footprint: %dKB\n"
    [ArgInt (ROUNDUP (sym_end - sym_entry) 1024 / 1024)] ;;;
  ret 0.

(** [page_alloc(&pp)] as a step of the monad. *)
Definition call_page_alloc : M (Z * nat) :=
  fun k => let '(rc, pp, pm) := page_alloc (pmap k) in Ok (rc, pp) (set_pmap pm k).

Definition mon_alloc_page (fuel : nat) (argc : Z) (argv : list string)
    (tf : Trapframe) : M Z :=
  r <- call_page_alloc ;;
  (if fst r =? 0 then
     pa <- get (fun k => page2pa (pmap k) (snd r)) ;;
     cprintf "    0x%x\n" [ArgInt pa] ;;;
     incr_pp_ref (snd r)
   else
     cprintf "    Page allocation failed\n" []) ;;;
  ret 0.

(** [pa2page(pa)] as a step of the monad: no descriptor, no return. *)
Definition call_pa2page (pa : Z) : M nat :=
  fun k => match pa2page (pmap k) pa with
           | Some pp => Ok pp k
           | None => Panic k
           end.

Definition call_page_decref (pp : nat) : M unit :=
  fun k => Ok tt (set_pmap (page_decref (pmap k) pp) k).

(** [argv[i]]. *)
Definition argv_at (argv : list string) (i : nat) : string :=
  nth i argv EmptyString.

Definition mon_page_status (fuel : nat) (argc : Z) (argv : list string)
    (tf : Trapframe) : M Z :=
  if negb (argc =? 2) then
    cprintf "Usage: page status [ADDR]\n" [] ;;;
    cprintf "    Address must be aligned in 4KB\n" [] ;;;
    ret 0
  else
    let pa := uint32 (strtol (argv_at argv 1) 0) in
    pp <- call_pa2page pa ;;
    r <- read_pp_ref pp ;;
    (if r >? 0 then cprintf "    Allocated\n" []
     else cprintf "    free\n" []) ;;;
    ret 0.

Definition mon_free_page (fuel : nat) (argc : Z) (argv : list string)
    (tf : Trapframe) : M Z :=
  if negb (argc =? 2) then
    cprintf "Usage: free page [ADDR]\n" [] ;;;
    cprintf "   Address must be aligned in 4KB\n" [] ;;;
    cprintf "    Please make sure that the page is currently mounted 1 time\n" [] ;;;
    ret 0
  else
    let pa := uint32 (strtol (argv_at argv 1) 0) in
    pp <- call_pa2page pa ;;
    r <- read_pp_ref pp ;;
    (if r =? 1 then
       call_page_decref pp ;;;
       cprintf "    Page freed successfully!\n" []
     else cprintf "   failed\n" []) ;;;
    ret 0.

(** ** The backtrace command *)

(** [read_ebp()] of inc/x86.h and [read_eip()], both inline assembly:
    the frame pointer of [mon_backtrace] and the address its caller
    resumes at, as the machine holds them on entry. *)
Definition read_ebp : M Z := get ebp.

Definition read_eip : M Z := get eip.

(** [J_NEXT_EBP(ebp)]: the word stored at the frame pointer.  [stack]
    holds the words of the frames that exist; a read through a pointer
    to no frame (null, unmapped), where the machine faults, is outside
    the embedding, and nothing below is stated about one. *)
Definition J_NEXT_EBP (p : Z) : M Z := get (fun k => stack k p).

(** [J_ARG_N(ebp, n)]: the word [n] slots above the frame pointer
    ([ebp] is an [unsigned int *], so the slot is 4 bytes wide). *)
Definition J_ARG_N (p : Z) (n : Z) : M Z :=
  get (fun k => stack k (uint32 (p + 4 * n))).

(** [debuginfo_eip(addr, &info)] on the static [info]; the monitor drops
    the return code. *)
Definition call_debuginfo_eip (addr : Z) : M Z :=
  fun k => let r := debuginfo_eip addr (info k) in Ok (fst r) (set_info (snd r) k).

(** The [for (i = 2; i < 7; i++)] loop of [dump_stack], [n] slots from
    slot [i] on. *)
Fixpoint dump_args (p : Z) (i : Z) (n : nat) : M unit :=
  match n with
  | O => ret tt
  | S n' =>
      a <- J_ARG_N p i ;;
      cprintf " %08x \n" [ArgInt a] ;;;
      dump_args p (i + 1) n'
  end.

Definition dump_stack (p : Z) : M Z :=
  e <- J_ARG_N p 1 ;;
  cprintf "ebp %08x eip %08x args" [ArgInt p; ArgInt e] ;;;
  dump_args p 2 5 ;;;
  J_NEXT_EBP p.

Definition dump_backstrace_symbols (p : Z) : M Z :=
  i <- get info ;;
  cprintf "%s %d\n" [ArgStr (eip_fn_name i); ArgInt (eip_line i)] ;;;
  a <- J_ARG_N p 1 ;;
  call_debuginfo_eip a ;;;
  J_NEXT_EBP p.

(** [do { p = body(p); } while (p);] with a budget of [fuel] rounds. *)
Fixpoint do_while (fuel : nat) (body : Z -> M Z) (p : Z) : M unit :=
  match fuel with
  | O => out_of_fuel
  | S fuel' =>
      p' <- body p ;;
      if p' =? 0 then ret tt else do_while fuel' body p'
  end.

Definition mon_backtrace (fuel : nat) (argc : Z) (argv : list string)
    (tf : Trapframe) : M Z :=
  p <- read_ebp ;;
  e <- read_eip ;;
  cprintf "current eip=%08x" [ArgInt e] ;;;
  call_debuginfo_eip e ;;;
  cprintf "\n" [] ;;;
  do_while fuel dump_stack p ;;;
  cprintf "\n" [] ;;;
  p <- read_ebp ;;
  do_while fuel dump_backstrace_symbols p ;;;
  ret 0.

(** ** The command table *)

Record Command : Type := {
  name : string;
  desc : string;
  (* return -1 to force monitor to exit *)
  func : nat -> Z -> list string -> Trapframe -> M Z
}.

Definition commands : list Command :=
  [ {| name := "help"; desc := "Display this list of commands";
       func := mon_help |};
    {| name := "kerninfo"; desc := "Display information about the kernel";
       func := mon_kerninfo |};
    {| name := "alloc_page"; desc := "Display the address of allocated page";
       func := mon_alloc_page |};
    {| name := "page_status"; desc := "Display the status of the page";
       func := mon_page_status |};
    {| name := "free_page"; desc := "Free the page, successfully or not";
       func := mon_free_page |};
    {| name := "backtrace"; desc := "Backtrace the function call";
       func := mon_backtrace |} ].

(** ** The command interpreter *)

(** ["\t\r\n "] *)
Definition WHITESPACE : list ascii :=
  [ascii_of_nat 9; ascii_of_nat 13; ascii_of_nat 10; ascii_of_nat 32].

Definition MAXARGS : Z := 16.

(** The pointer [buf] walks a buffer it also writes: the buffer is kept
    as the characters before the pointer ([pre], already final) and those
    from the pointer on ([rest], the terminator being implicit at the
    end).  [*buf] is the head of [rest]. *)
Definition deref (rest : list ascii) : ascii := hd NUL rest.

(** The loop that gobbles whitespace: while [*buf] is neither the
    terminator nor outside [WHITESPACE], write 0 over it and advance. *)
Fixpoint gobble (pre rest : list ascii) : list ascii * list ascii :=
  match rest with
  | c :: rest' =>
      if negb (Ascii.eqb c NUL) && strchr WHITESPACE c
      then gobble (pre ++ [NUL]) rest'
      else (pre, rest)
  | [] => (pre, rest)
  end.

(** The loop that scans past an argument: while [*buf] is neither the
    terminator nor in [WHITESPACE], advance. *)
Fixpoint scan (pre rest : list ascii) : list ascii * list ascii :=
  match rest with
  | c :: rest' =>
      if negb (Ascii.eqb c NUL) && negb (strchr WHITESPACE c)
      then scan (pre ++ [c]) rest'
      else (pre, rest)
  | [] => (pre, rest)
  end.

(** How the parsing loop of [runcmd] ends: it breaks with the buffer as
    written and the offsets stored in [argv], or it returns early on too
    many arguments; [ParseFuel] is the loop budget running out. *)
Inductive parsed : Type :=
| Parsed (buf : list ascii) (argv : list nat)
| TooMany
| ParseFuel.

(** The [while (1)] loop of [runcmd]; [argc] is the length of [argv]. *)
Fixpoint parse (fuel : nat) (pre rest : list ascii) (argv : list nat) : parsed :=
  match fuel with
  | O => ParseFuel
  | S fuel' =>
      let '(pre1, rest1) := gobble pre rest in
      if Ascii.eqb (deref rest1) NUL then Parsed (pre1 ++ rest1) argv
      else if Z.of_nat (length argv) =? MAXARGS - 1 then TooMany
      else
        let '(pre2, rest2) := scan pre1 rest1 in
        parse fuel' pre2 rest2 (argv ++ [length pre1])
  end.

(** The C string that starts at offset [off] of the buffer. *)
Fixpoint cstr (l : list ascii) : string :=
  match l with
  | [] => EmptyString
  | c :: l' => if Ascii.eqb c NUL then EmptyString else String c (cstr l')
  end.

Definition cstr_at (buf : list ascii) (off : nat) : string :=
  cstr (skipn off buf).

(** The [for] loop of [runcmd] over the table rows, from row [i] on. *)
Fixpoint lookup (cmds : list Command) (fuel : nat) (argc : Z)
    (argv : list string) (tf : Trapframe) : M Z :=
  match cmds with
  | [] =>
      cprintf "Unknown command '%s'\n" [ArgStr (Some (argv_at argv 0))] ;;;
      ret 0
  | c :: cmds' =>
      if strcmp (argv_at argv 0) (name c) =? 0
      then func c fuel argc argv tf
      else lookup cmds' fuel argc argv tf
  end.

(** The parsing loop on a whole line: one round per character is
    enough, see [parse_fuel]. *)
Definition tokenize (line : string) : parsed :=
  let buf := list_ascii_of_string line in
  parse (S (length buf)) [] buf [].

Definition runcmd (fuel : nat) (buf : string) (tf : Trapframe) : M Z :=
  match tokenize buf with
  | ParseFuel => out_of_fuel
  | TooMany =>
      cprintf "Too many arguments (max %d)\n" [ArgInt MAXARGS] ;;;
      ret 0
  | Parsed buf' offs =>
      let argc := Z.of_nat (length offs) in
      let argv := map (cstr_at buf') offs in
      if argc =? 0 then ret 0
      else lookup commands fuel argc argv tf
  end.

(** ** The read-eval loop *)

(** Where [monitor] stands after a finite run of [readline] results:
    it left the loop by [break], or it waits in [readline], or a command
    has not returned. *)
Inductive Mon : Type :=
| Exited (k : Kernel)
| Waiting (k : Kernel)
| Stuck (k : Kernel).

(** The [while (1)] loop of [monitor]; [lines] are the successive results
    of [readline("K> ")], [None] being the null pointer. *)
Fixpoint monitor_loop (fuel : nat) (lines : list (option string))
    (tf : Trapframe) (k : Kernel) : Mon :=
  match lines with
  | [] => Waiting k
  | None :: lines' => monitor_loop fuel lines' tf k
  | Some buf :: lines' =>
      match runcmd fuel buf tf k with
      | Ok r k' => if r <? 0 then Exited k' else monitor_loop fuel lines' tf k'
      | Panic k' => Stuck k'
      | OutOfFuel k' => Stuck k'
      end
  end.

Definition monitor (fuel : nat) (lines : list (option string))
    (tf : Trapframe) (k : Kernel) : Mon :=
  match (cprintf "Welcome to %Cc the JOS kernel monitor!\n"
           [ArgInt COLOR_GRN; ArgChr "H"%char] ;;;
         cprintf "Type 'help' for a list of commands.\n" []) k with
  | Ok _ k' => monitor_loop fuel lines tf k'
  | Panic k' => Stuck k'
  | OutOfFuel k' => Stuck k'
  end.

End Handlers.

(** ** A concrete kernel around the monitor

    One implementation of [Extern], used to run the monitor on concrete
    inputs. *)

Module Model.

(** Value of a digit character, if it is one: 0-9, then a-z and A-Z
    from 10 on. *)
Definition digit_of (c : ascii) : option Z :=
  let n := Z.of_nat (nat_of_ascii c) in
  if (48 <=? n) && (n <=? 57) then Some (n - 48)
  else if (97 <=? n) && (n <=? 122) then Some (n - 97 + 10)
  else if (65 <=? n) && (n <=? 90) then Some (n - 65 + 10)
  else None.

(** The digit loop: stops at the first character that is not a digit of
    the base. *)
Fixpoint digits (base : Z) (s : string) (val : Z) : Z :=
  match s with
  | EmptyString => val
  | String c s' =>
      match digit_of c with
      | Some d => if d <? base then digits base s' (val * base + d) else val
      | None => val
      end
  end.

Fixpoint skip_blank (s : string) : string :=
  match s with
  | String c s' =>
      if Ascii.eqb c " "%char || Ascii.eqb c (ascii_of_nat 9)
      then skip_blank s' else s
  | EmptyString => s
  end.

(** The radix prefix, with base 0 or 16 asked for. *)
Definition radix (base : Z) (s : string) : Z * string :=
  match s with
  | String "0" (String "x" s') =>
      if (base =? 0) || (base =? 16) then (16, s')
      else (base, s)
  | String "0" s' => if base =? 0 then (8, s') else (base, s)
  | _ => if base =? 0 then (10, s) else (base, s)
  end.

(** Modelled from the spec: [strtol] is defined in lib/string.c, not in
    this file.  Numeric arguments are parsed permissively, as C integer
    literals: leading 0x implies hexadecimal, leading zero implies octal,
    else decimal; the value is accumulated from 0 over the digits
    found. *)
Definition strtol (s : string) (base : Z) : Z :=
  let s := skip_blank s in
  let '(neg, s) :=
    match s with
    | String "+" s' => (false, s')
    | String "-" s' => (true, s')
    | _ => (false, s)
    end in
  let '(base, s) := radix base s in
  let val := digits base s 0 in
  if neg then - val else val.

Definition PGSIZE : Z := 4096.

(** Modelled from the spec: [page2pa] is defined in kern/pmap.h, not in
    this file.  It is the spec's descriptorToAddress: the physical
    address is implicit in the table position, one 4KB page per row. *)
Definition page2pa (pm : Pmap) (pp : nat) : Z := Z.of_nat pp * PGSIZE.

(** Modelled from the spec: [pa2page] is defined in kern/pmap.h, not in
    this file.  It is the spec's addressToDescriptor: the row of the page
    that holds the address, when the table has one. *)
Definition pa2page (pm : Pmap) (pa : Z) : option nat :=
  let i := Z.to_nat (pa / PGSIZE) in
  if (i <? length (pages pm))%nat then Some i else None.

(** Modelled from the spec: [page_alloc] is defined in kern/pmap.c, not
    in this file.  It is the spec's pageAllocate: it hands out the head
    of the free list with return code 0, or fails with a negative code
    and no state change when the allocator is exhausted. *)
Definition page_alloc (pm : Pmap) : Z * nat * Pmap :=
  match page_free_list pm with
  | Some pp =>
      match pages pm !! pp with
      | Some pg =>
          (0, pp,
           {| pages := <[pp := {| pp_link := None; pp_ref := pp_ref pg |}]> (pages pm);
              page_free_list := pp_link pg |})
      | None => (-4, O, pm)
      end
  | None => (-4, O, pm)
  end.

(** Modelled from the spec: [page_decref] is defined in kern/pmap.c, not
    in this file.  It decrements the reference count of the descriptor;
    a count that reaches zero fully releases the page, which goes back
    to the free list. *)
Definition page_decref (pm : Pmap) (pp : nat) : Pmap :=
  match pages pm !! pp with
  | Some pg =>
      let r := uint16 (pp_ref pg - 1) in
      if r =? 0 then
        {| pages := <[pp := {| pp_link := page_free_list pm; pp_ref := r |}]> (pages pm);
           page_free_list := Some pp |}
      else
        {| pages := <[pp := {| pp_link := pp_link pg; pp_ref := r |}]> (pages pm);
           page_free_list := page_free_list pm |}
  | None => pm
  end.

(** A symbol table: the functions of the kernel image, each with the
    address range of its code and the source line of its first
    statement. *)
Record symbol : Type := {
  sym_lo : Z; sym_hi : Z; sym_name : string; sym_line : Z }.

Definition symtab : list symbol :=
  [ {| sym_lo := 4027584512; sym_hi := 4027584767;
       sym_name := "mon_backtrace"; sym_line := 171 |};
    {| sym_lo := 4027584768; sym_hi := 4027585023;
       sym_name := "runcmd"; sym_line := 203 |};
    {| sym_lo := 4027585024; sym_hi := 4027585279;
       sym_name := "monitor"; sym_line := 242 |} ].

(** Modelled from the spec: [debuginfo_eip] is defined in kern/kdebug.c,
    not in this file.  It is the spec's symbolize: a record with the
    function name and line for the instruction address; when resolution
    fails the record holds a placeholder and the call returns a negative
    code. *)
Definition debuginfo_eip (addr : Z) (old : Eipdebuginfo) : Z * Eipdebuginfo :=
  match find (fun s => (sym_lo s <=? addr) && (addr <=? sym_hi s)) symtab with
  | Some s =>
      (0, {| eip_file := Some "kern/monitor.c"; eip_line := sym_line s;
             eip_fn_name := Some (sym_name s);
             eip_fn_namelen := Z.of_nat (String.length (sym_name s));
             eip_fn_addr := sym_lo s; eip_fn_narg := 0 |})
  | None =>
      (-1, {| eip_file := Some "<unknown>"; eip_line := 0;
              eip_fn_name := Some "<unknown>"; eip_fn_namelen := 9;
              eip_fn_addr := addr; eip_fn_narg := 0 |})
  end.

(** Modelled from the spec: [ROUNDUP] is a macro of inc/types.h, not in
    this file: the least multiple of [n] that is not below [a]. *)
Definition ROUNDUP (a n : Z) : Z :=
  let t := uint32 (a + n - 1) in t - t mod n.

Definition ext : Extern :=
  Build_Extern strtol page_alloc page2pa pa2page page_decref debuginfo_eip
    1048588 4027580428 4027588000 4027650048 4027654144 4026531840 2 ROUNDUP.

(** A page table of four pages: page 0 free, page 1 held once, page 2
    held twice, page 3 free and heading the free list. *)
Definition pm0 : Pmap :=
  {| pages := [ {| pp_link := None; pp_ref := 0 |};
                {| pp_link := None; pp_ref := 1 |};
                {| pp_link := None; pp_ref := 2 |};
                {| pp_link := Some O; pp_ref := 0 |} ];
     page_free_list := Some 3%nat |}.

(** A stack of three frames at 0x1000, 0x2000 and 0x3000; the word above
    each frame pointer is a return address, the second one outside the
    symbol table. *)
Definition stack3 (a : Z) : Z :=
  if a =? 4096 then 8192
  else if a =? 4100 then 4027584800
  else if a =? 8192 then 12288
  else if a =? 8196 then 1048600
  else if a =? 12288 then 0
  else if a =? 12292 then 4027585100
  else 7.

Definition k0 : Kernel :=
  {| pmap := pm0; info := info_zero; console := [];
     stack := stack3; ebp := 4096; eip := 4027584600 |}.

(** A stack whose second frame points back to the first. *)
Definition stack_cyc (a : Z) : Z :=
  if a =? 4096 then 8192
  else if a =? 8192 then 4096
  else 7.

Definition k_cyc : Kernel :=
  {| pmap := pm0; info := info_zero; console := [];
     stack := stack_cyc; ebp := 4096; eip := 4027584600 |}.

End Model.

(** * Specification

    The notions the properties below are stated with. *)

Section Specification.

Context {E : Extern}.

(** A character that belongs to an argument: neither the terminator nor
    whitespace. *)
Definition tok_char (c : ascii) : bool :=
  negb (Ascii.eqb c NUL) && negb (strchr WHITESPACE c).

(** A whitespace character (none of them is the terminator). *)
Definition ws_char (c : ascii) : bool :=
  negb (Ascii.eqb c NUL) && strchr WHITESPACE c.

(** The text stops or a separator follows. *)
Definition at_end (l : list ascii) : bool :=
  match l with
  | [] => true
  | c :: _ => negb (tok_char c)
  end.

(** The spec's tokenization, as a relation between the text of a line and
    its tokens: the text ends (at its end or at a terminator) and there
    is no token; or it starts with a whitespace character, which is
    dropped; or it starts with a token, a non-empty run of characters
    that are neither whitespace nor the terminator, after which the text
    stops or a separator follows. *)
Inductive Split : list ascii -> list (list ascii) -> Prop :=
| Split_end (l : list ascii) :
    Ascii.eqb (deref l) NUL = true -> Split l []
| Split_ws (c : ascii) (l : list ascii) (toks : list (list ascii)) :
    ws_char c = true -> Split l toks -> Split (c :: l) toks
| Split_tok (tok l : list ascii) (toks : list (list ascii)) :
    tok <> [] -> forallb tok_char tok = true -> at_end l = true ->
    Split l toks -> Split (tok ++ l) (tok :: toks).

(** The buffer as the parsing loop leaves it: whitespace before the
    terminator is overwritten with 0. *)
Fixpoint zeroed (l : list ascii) : list ascii :=
  match l with
  | [] => []
  | c :: l' =>
      if Ascii.eqb c NUL then l
      else if strchr WHITESPACE c then NUL :: zeroed l'
      else c :: zeroed l'
  end.

(** The arguments a finished parse hands to the dispatcher. *)
Definition argv_of (r : parsed) : option (list string) :=
  match r with
  | Parsed buf offs => Some (map (cstr_at buf) offs)
  | TooMany => None
  | ParseFuel => None
  end.

(** The reference count of a descriptor, when the table has it. *)
Definition ref_count (pm : Pmap) (pp : nat) : option Z :=
  match pages pm !! pp with
  | Some pg => Some (pp_ref pg)
  | None => None
  end.

(** The address a page command works on: its one argument through
    [strtol], stored in a [uint32_t]. *)
Definition addr_arg (argv : list string) : Z :=
  uint32 (strtol (argv_at argv 1) 0).

(** Printing one line and nothing else. *)
Definition says (f : string) (k : Kernel) : Kernel :=
  set_console (console k ++ [Cprintf f []]) k.

(** What [page_status] and [free_page] can have printed when they stop,
    given one argument: nothing (the lookup did not return) or the one
    line of their verdict. *)
Definition page_status_said (k k' : Kernel) : Prop :=
  console k' = console k \/
  console k' = console k ++ [Cprintf "    Allocated\n" []] \/
  console k' = console k ++ [Cprintf "    free\n" []].

Definition free_page_said (k k' : Kernel) : Prop :=
  console k' = console k \/
  console k' = console k ++ [Cprintf "    Page freed successfully!\n" []] \/
  console k' = console k ++ [Cprintf "   failed\n" []].

(** A [string] that can be the text of a C string: no terminator in it. *)
Definition nul_free (s : string) : bool :=
  forallb (fun c => negb (Ascii.eqb c NUL)) (list_ascii_of_string s).

(** The row the [for] loop of [runcmd] stops at: the first one whose
    name [strcmp] finds equal to the first argument. *)
Definition first_match (cmds : list Command) (a0 : string) : option Command :=
  find (fun c => strcmp a0 (name c) =? 0) cmds.

Definition unknown_command (a0 : string) (k : Kernel) : Kernel :=
  set_console (console k ++ [Cprintf "Unknown command '%s'\n" [ArgStr (Some a0)]]) k.

(** A line of sixteen one-letter tokens. *)
Definition line16 : string := "a b c d e f g h i j k l m n o p".

Definition toks16 : list (list ascii) :=
  map (fun c => [c]) (list_ascii_of_string "abcdefghijklmnop").

(** A computation that, when it returns, returns 0. *)
Definition returns_zero (m : M Z) : Prop :=
  forall (k : Kernel) (r : Z) (k' : Kernel), m k = Ok r k' -> r = 0.

(** The frame pointer reached from [p] after [n] hops along the saved
    frame pointers; for [n] at least 1 it is the [n]-th saved frame
    pointer of the chain that starts at [p]. *)
Fixpoint frame_at (mem : Z -> Z) (p : Z) (n : nat) : Z :=
  match n with
  | O => p
  | S n' => frame_at mem (mem p) n'
  end.

(** A chain of length [N] from [p]: the [N]-th saved frame pointer is the
    zero sentinel and no earlier one is. *)
Definition chain (mem : Z -> Z) (p : Z) (N : nat) : bool :=
  (1 <=? N)%nat && (frame_at mem p N =? 0) &&
  forallb (fun i => negb (frame_at mem p i =? 0)) (seq 1 (N - 1)).

(** A chain with a cycle: the saved frame pointer of frame [j] points
    back to frame [i], and no saved frame pointer up to there is the
    sentinel. *)
Definition has_cycle (mem : Z -> Z) (p : Z) (i j : nat) : bool :=
  (i <=? j)%nat && (frame_at mem p (S j) =? frame_at mem p i) &&
  forallb (fun n => negb (frame_at mem p n =? 0)) (seq 1 (S j)).

(** The first [n] frames of the walk from [p]. *)
Fixpoint frames (mem : Z -> Z) (p : Z) (n : nat) : list Z :=
  match n with
  | O => []
  | S n' => p :: frames mem (mem p) n'
  end.

(** The word above the frame pointer: the frame's saved return address. *)
Definition ret_addr (mem : Z -> Z) (p : Z) : Z := mem (uint32 (p + 4 * 1)).

(** What [dump_stack] prints for the frame at [p]. *)
Definition dump_out (mem : Z -> Z) (p : Z) : list event :=
  Cprintf "ebp %08x eip %08x args" [ArgInt p; ArgInt (ret_addr mem p)] ::
  map (fun n => Cprintf " %08x \n" [ArgInt (mem (uint32 (p + 4 * n)))])
      [2; 3; 4; 5; 6].

(** The line [dump_backstrace_symbols] prints from a record. *)
Definition sym_line (i : Eipdebuginfo) : event :=
  Cprintf "%s %d\n" [ArgStr (eip_fn_name i); ArgInt (eip_line i)].

(** The symbol lines among what was printed. *)
Definition symbol_lines (out : list event) : list event :=
  filter (fun e => String.eqb (fmt e) "%s %d\n") out.

(** The state reached from [k] by printing [out] and leaving [i] in the
    static [info]. *)
Definition mk (k : Kernel) (out : list event) (i : Eipdebuginfo) : Kernel :=
  {| pmap := pmap k; info := i; console := console k ++ out;
     stack := stack k; ebp := ebp k; eip := eip k |}.

(** The record [debuginfo_eip] leaves in [info] for an address. *)
Definition resolved (a : Z) (i : Eipdebuginfo) : Eipdebuginfo :=
  snd (debuginfo_eip a i).

(** The records the symbol pass prints over the frames [fs], starting
    with [i] in [info]: it prints the record it finds, then resolves the
    return address of the frame into it. *)
Fixpoint sym_infos (mem : Z -> Z) (i : Eipdebuginfo) (fs : list Z)
  : list Eipdebuginfo :=
  match fs with
  | [] => []
  | p :: fs' => i :: sym_infos mem (resolved (ret_addr mem p) i) fs'
  end.

(** The record in [info] after the symbol pass. *)
Fixpoint sym_last (mem : Z -> Z) (i : Eipdebuginfo) (fs : list Z)
  : Eipdebuginfo :=
  match fs with
  | [] => i
  | p :: fs' => sym_last mem (resolved (ret_addr mem p) i) fs'
  end.

(** The two lines [mon_backtrace] prints before the dump pass. *)
Definition backtrace_head (k : Kernel) : list event :=
  [Cprintf "current eip=%08x" [ArgInt (eip k)]; Cprintf "\n" []].

(** The state reached from [k] by printing [out]. *)
Definition emit (out : list event) (k : Kernel) : Kernel :=
  set_console (console k ++ out) k.

(** The line [mon_help] prints for a row of the table. *)
Definition help_line (c : Command) : event :=
  Cprintf "%s - %s\n" [ArgStr (Some (name c)); ArgStr (Some (desc c))].

(** What [runcmd] prints on too many arguments. *)
Definition too_many (k : Kernel) : Kernel :=
  emit [Cprintf "Too many arguments (max %d)\n" [ArgInt MAXARGS]] k.

(** The first token of a line, the command it asks for; empty when the
    line has no token or too many. *)
Definition command_of (line : string) : string :=
  match argv_of (tokenize line) with
  | Some (a0 :: _) => a0
  | _ => EmptyString
  end.

(** A well-formed token: non-empty, without whitespace or terminator. *)
Definition token_ok (tok : list ascii) : bool :=
  match tok with
  | [] => false
  | _ :: _ => forallb tok_char tok
  end.

(** The tokens written on one line, a single space between two. *)
Fixpoint join_sp (toks : list (list ascii)) : list ascii :=
  match toks with
  | [] => []
  | [tok] => tok
  | tok :: toks' => tok ++ " "%char :: join_sp toks'
  end.

(** A result of [readline] that gives [monitor] nothing to do: the null
    pointer, or a line of whitespace only. *)
Definition idle (l : option string) : bool :=
  match l with
  | None => true
  | Some buf => forallb ws_char (list_ascii_of_string buf)
  end.

(** From [k] to [k'] the allocator state is the same. *)
Definition same_pmap (k k' : Kernel) : Prop := pmap k' = pmap k.

(** From [k] to [k'] the static [info] is the same. *)
Definition same_info (k k' : Kernel) : Prop := info k' = info k.

(** A computation that keeps a relation between the state it starts in
    and the state it stops in, however it stops. *)
Definition keeps {A : Type} (R : Kernel -> Kernel -> Prop) (m : M A) : Prop :=
  forall k : Kernel, R k (final (m k)).

End Specification.

Arguments strchr : simpl never.
Arguments tok_char : simpl never.
Arguments ws_char : simpl never.

(** * Properties *)

(** ** The tokenizer *)

Lemma tok_char_not_ws (c : ascii) : tok_char c = true -> ws_char c = false.
Proof.
  unfold tok_char, ws_char. intros H.
  apply andb_true_iff in H as [_ H]. apply negb_true_iff in H.
  rewrite H. apply andb_false_r.
Qed.

Lemma tok_char_not_nul (c : ascii) :
  tok_char c = true -> Ascii.eqb c NUL = false.
Proof.
  unfold tok_char. intros H.
  apply andb_true_iff in H as [H _]. now apply negb_true_iff in H.
Qed.

Lemma ws_char_zeroed (c : ascii) (l : list ascii) :
  ws_char c = true -> zeroed (c :: l) = NUL :: zeroed l.
Proof.
  unfold ws_char. intros H. apply andb_true_iff in H as [H1 H2].
  apply negb_true_iff in H1. simpl. now rewrite H1, H2.
Qed.

Lemma deref_nul_zeroed (l : list ascii) :
  Ascii.eqb (deref l) NUL = true -> zeroed l = l.
Proof.
  destruct l as [|c l]; simpl; intros H; [reflexivity|]. now rewrite H.
Qed.

Lemma gobble_stop (pre l : list ascii) :
  ws_char (deref l) = false -> gobble pre l = (pre, l).
Proof.
  destruct l as [|c l]; simpl; [reflexivity|].
  unfold ws_char. now intros ->.
Qed.

Lemma scan_tok (tok : list ascii) : forall (pre l : list ascii),
  forallb tok_char tok = true -> at_end l = true ->
  scan pre (tok ++ l) = (pre ++ tok, l).
Proof.
  induction tok as [|c tok IH]; intros pre l Htok Hend.
  - rewrite app_nil_r. simpl. destruct l as [|d l]; [reflexivity|].
    simpl in Hend. apply negb_true_iff in Hend.
    unfold scan. fold scan. unfold tok_char in Hend. now rewrite Hend.
  - simpl in Htok. apply andb_true_iff in Htok as [Hc Htok].
    simpl. unfold tok_char in Hc. rewrite Hc.
    rewrite IH by assumption. now rewrite <- app_assoc.
Qed.

Lemma zeroed_tok (tok : list ascii) : forall l : list ascii,
  forallb tok_char tok = true -> zeroed (tok ++ l) = tok ++ zeroed l.
Proof.
  induction tok as [|c tok IH]; intros l Htok; [reflexivity|].
  simpl in Htok. apply andb_true_iff in Htok as [Hc Htok].
  unfold tok_char in Hc. apply andb_true_iff in Hc as [Hc1 Hc2].
  apply negb_true_iff in Hc1, Hc2.
  simpl. rewrite Hc1, Hc2. now rewrite IH.
Qed.

Lemma cstr_tok (tok : list ascii) : forall l : list ascii,
  forallb tok_char tok = true -> Ascii.eqb (deref l) NUL = true ->
  cstr (tok ++ l) = string_of_list_ascii tok.
Proof.
  induction tok as [|c tok IH]; intros l Htok Hl.
  - simpl. destruct l as [|d l]; [reflexivity|]. simpl in *. now rewrite Hl.
  - simpl in Htok. apply andb_true_iff in Htok as [Hc Htok].
    simpl. rewrite (tok_char_not_nul _ Hc). now rewrite IH.
Qed.

Lemma at_end_zeroed (l : list ascii) :
  at_end l = true -> Ascii.eqb (deref (zeroed l)) NUL = true.
Proof.
  destruct l as [|c l]; simpl; [reflexivity|].
  unfold tok_char. intros H. apply negb_true_iff in H.
  destruct (Ascii.eqb c NUL) eqn:Hc; simpl in *; [exact Hc|].
  apply negb_false_iff in H. now rewrite H.
Qed.

Lemma parse_ws (fuel : nat) (pre : list ascii) (c : ascii) (l : list ascii)
    (offs : list nat) :
  ws_char c = true ->
  parse (S fuel) pre (c :: l) offs = parse (S fuel) (pre ++ [NUL]) l offs.
Proof.
  intros H. unfold ws_char in H. cbn [parse gobble]. now rewrite H.
Qed.

(** The parsing loop computes the spec's tokenization, up to the 15
    arguments that fit in [argv] before its closing null pointer. *)
Lemma parse_Split (rest : list ascii) (toks : list (list ascii)) :
  Split rest toks ->
  forall (fuel : nat) (pre : list ascii) (offs : list nat),
    (length rest < fuel)%nat -> (length offs <= 15)%nat ->
    ((length offs + length toks <= 15)%nat ->
     exists offs' : list nat,
       map (cstr_at (pre ++ zeroed rest)) offs' = map string_of_list_ascii toks /\
       parse fuel pre rest offs = Parsed (pre ++ zeroed rest) (offs ++ offs')) /\
    ((15 < length offs + length toks)%nat ->
     parse fuel pre rest offs = TooMany).
Proof.
  induction 1 as [l Hl | c l toks Hc _ IH | tok l toks Hne Htok Hend _ IH];
    intros fuel pre offs Hfuel Hoffs.
  - destruct fuel as [|fuel]; [lia|].
    cbn [length]. split; [intros _ | lia].
    exists []. split; [reflexivity|].
    cbn [parse]. rewrite gobble_stop by (unfold ws_char; now rewrite Hl).
    now rewrite Hl, deref_nul_zeroed, app_nil_r.
  - destruct fuel as [|fuel]; [lia|].
    rewrite parse_ws by assumption.
    cbn [length] in Hfuel.
    destruct (IH (S fuel) (pre ++ [NUL]) offs) as [IH1 IH2];
      [lia | assumption |].
    rewrite ws_char_zeroed by assumption.
    rewrite <- app_assoc in IH1. cbn [app] in IH1.
    split; assumption.
  - destruct tok as [|c tok]; [congruence|].
    destruct fuel as [|fuel]; [lia|].
    assert (Hc : tok_char c = true)
      by (cbn [forallb] in Htok; now apply andb_true_iff in Htok).
    rewrite length_app in Hfuel. cbn [length] in Hfuel.
    assert (Hstep : parse (S fuel) pre ((c :: tok) ++ l) offs =
                    if Z.of_nat (length offs) =? MAXARGS - 1 then TooMany
                    else parse fuel (pre ++ c :: tok) l (offs ++ [length pre])).
    { cbn [parse]. rewrite gobble_stop by (now apply tok_char_not_ws).
      change (deref ((c :: tok) ++ l)) with c.
      rewrite (tok_char_not_nul _ Hc).
      now rewrite scan_tok by assumption. }
    rewrite Hstep. clear Hstep. cbn [length].
    destruct (Z.of_nat (length offs) =? MAXARGS - 1) eqn:Hfull.
    + apply Z.eqb_eq in Hfull. unfold MAXARGS in Hfull.
      split; [lia | reflexivity].
    + apply Z.eqb_neq in Hfull. unfold MAXARGS in Hfull.
      destruct (IH fuel (pre ++ c :: tok) (offs ++ [length pre]))
        as [IH1 IH2]; [lia | rewrite length_app; cbn [length]; lia |].
      rewrite length_app in IH1, IH2. cbn [length] in IH1, IH2.
      rewrite zeroed_tok by assumption.
      split; [intros Hle | intros Hgt; apply IH2; lia].
      destruct IH1 as [offs' [Hmap Hparse]]; [lia|].
      rewrite <- (app_assoc pre) in Hmap, Hparse.
      rewrite <- (app_assoc offs) in Hparse.
      exists (length pre :: offs'). split; [|exact Hparse].
      cbn [map]. f_equal; [|exact Hmap].
      unfold cstr_at. rewrite skipn_app, Nat.sub_diag, skipn_all.
      cbn [skipn]. rewrite app_nil_l.
      apply cstr_tok; [assumption|]. now apply at_end_zeroed.
Qed.

(** Every text starts with a (possibly empty) run of argument characters
    after which it stops or a separator follows. *)
Lemma span_tok (l : list ascii) :
  exists tok rest : list ascii,
    l = tok ++ rest /\ forallb tok_char tok = true /\ at_end rest = true /\
    (length rest <= length l)%nat.
Proof.
  induction l as [|c l (tok & rest & -> & Htok & Hend & Hlen)].
  - now exists [], [].
  - destruct (tok_char c) eqn:Hc.
    + exists (c :: tok), rest. cbn [forallb length]. rewrite Hc, Htok.
      repeat split; [assumption | lia].
    + exists [], (c :: tok ++ rest). cbn [at_end]. rewrite Hc.
      repeat split; lia.
Qed.

(** Every text has a tokenization. *)
Lemma Split_total (l : list ascii) : exists toks, Split l toks.
Proof.
  remember (length l) as n eqn:Hn.
  revert l Hn. induction n as [n IH] using lt_wf_ind. intros l ->.
  destruct l as [|c l]; [exists []; now constructor|].
  destruct (Ascii.eqb c NUL) eqn:Hnul; [exists []; now constructor|].
  destruct (strchr WHITESPACE c) eqn:Hws.
  - destruct (IH (length l)) with (l := l) as [toks Htoks];
      [cbn [length]; lia | reflexivity |].
    exists toks. constructor; [|assumption].
    unfold ws_char. now rewrite Hnul, Hws.
  - destruct (span_tok l) as (tok & rest & -> & Htok & Hend & Hlen).
    destruct (IH (length rest)) with (l := rest) as [toks Htoks];
      [cbn [length]; rewrite length_app; lia | reflexivity |].
    exists ((c :: tok) :: toks).
    change (c :: tok ++ rest) with ((c :: tok) ++ rest).
    constructor; [discriminate | | assumption | assumption].
    cbn [forallb]. unfold tok_char at 1. now rewrite Hnul, Hws, Htok.
Qed.

(** Every token of a tokenization is non-empty and free of whitespace
    and terminators. *)
Lemma Split_tokens (l : list ascii) (toks : list (list ascii)) :
  Split l toks ->
  Forall (fun tok => tok <> [] /\ forallb tok_char tok = true) toks.
Proof.
  induction 1; [constructor | assumption |].
  constructor; [split|]; assumption.
Qed.

(** A line of whitespace has no token. *)
Lemma Split_blank (l : list ascii) :
  forallb ws_char l = true -> Split l [].
Proof.
  induction l as [|c l IH]; intros H; [now constructor|].
  cbn [forallb] in H. apply andb_true_iff in H as [Hc Hl].
  constructor; [assumption | now apply IH].
Qed.

(** On a whole line the loop ends by itself, with the spec's tokens when
    they are at most 15 and with the early return otherwise. *)
Lemma tokenize_Split (line : string) (toks : list (list ascii)) :
  Split (list_ascii_of_string line) toks ->
  ((length toks <= 15)%nat ->
   argv_of (tokenize line) = Some (map string_of_list_ascii toks)) /\
  ((15 < length toks)%nat -> tokenize line = TooMany).
Proof.
  intros H. unfold tokenize.
  destruct (parse_Split _ _ H (S (length (list_ascii_of_string line))) [] [])
    as [H1 H2]; [lia | cbn [length]; lia |].
  cbn [length] in H1, H2. split; [intros Hle | intros Hgt; apply H2; lia].
  destruct H1 as [offs' [Hmap Hparse]]; [lia|].
  cbn [app] in Hmap, Hparse. rewrite Hparse. cbn [argv_of]. now rewrite Hmap.
Qed.

Lemma tokenize_sound (line : string) (argv : list string) :
  argv_of (tokenize line) = Some argv ->
  exists toks : list (list ascii),
    Split (list_ascii_of_string line) toks /\
    argv = map string_of_list_ascii toks /\ (length toks <= 15)%nat.
Proof.
  intros Hargv.
  destruct (Split_total (list_ascii_of_string line)) as [toks Htoks].
  destruct (tokenize_Split line toks Htoks) as [H1 H2].
  destruct (Nat.le_gt_cases (length toks) 15) as [Hle | Hgt].
  - exists toks. rewrite H1 in Hargv by assumption.
    injection Hargv as <-. now repeat split.
  - rewrite H2 in Hargv by assumption. discriminate.
Qed.

(** The budget of one round per character is never used up. *)
Lemma parse_fuel (line : string) : tokenize line <> ParseFuel.
Proof.
  destruct (Split_total (list_ascii_of_string line)) as [toks Htoks].
  destruct (tokenize_Split line toks Htoks) as [H1 H2].
  destruct (Nat.le_gt_cases (length toks) 15) as [Hle | Hgt].
  - specialize (H1 Hle). intros Heq. rewrite Heq in H1. discriminate.
  - rewrite H2 by assumption. discriminate.
Qed.

(** ** The page commands *)

Section PageCommands.

Context {E : Extern}.

Lemma read_pp_ref_ok (pp : nat) (r : Z) (k : Kernel) :
  ref_count (pmap k) pp = Some r -> read_pp_ref pp k = Ok r k.
Proof.
  unfold ref_count, read_pp_ref.
  destruct (pages (pmap k) !! pp); [|discriminate]. now intros [= ->].
Qed.

(** [page_status] with one argument that names a descriptor. *)
Lemma mon_page_status_ok (fuel : nat) (argv : list string) (tf : Trapframe)
    (k : Kernel) (pp : nat) (r : Z) :
  pa2page (pmap k) (addr_arg argv) = Some pp ->
  ref_count (pmap k) pp = Some r ->
  mon_page_status fuel 2 argv tf k =
    Ok 0 (says (if r >? 0 then "    Allocated\n" else "    free\n") k).
Proof.
  intros Hpa Hr. unfold mon_page_status, bind, call_pa2page. cbn [Z.eqb Pos.eqb negb].
  unfold addr_arg in Hpa. rewrite Hpa, (read_pp_ref_ok _ _ _ Hr).
  now destruct (r >? 0).
Qed.

(** [page_status] with one argument never writes the page table, the
    static [info] or the stack, whether it returns or not. *)
Lemma mon_page_status_frame (fuel : nat) (argv : list string) (tf : Trapframe)
    (k : Kernel) :
  let k' := final (mon_page_status fuel 2 argv tf k) in
  pmap k' = pmap k /\ info k' = info k /\ stack k' = stack k /\
  ebp k' = ebp k /\ eip k' = eip k.
Proof.
  unfold mon_page_status, bind, call_pa2page, read_pp_ref.
  cbn [Z.eqb Pos.eqb negb].
  destruct (pa2page _ _) as [pp|]; [|now cbn].
  destruct (pages (pmap k) !! pp) as [pg|]; [|now cbn].
  now destruct (pp_ref pg >? 0).
Qed.

(** [free_page] with one argument that names a descriptor. *)
Lemma mon_free_page_ok (fuel : nat) (argv : list string) (tf : Trapframe)
    (k : Kernel) (pp : nat) (r : Z) :
  pa2page (pmap k) (addr_arg argv) = Some pp ->
  ref_count (pmap k) pp = Some r ->
  mon_free_page fuel 2 argv tf k =
    if r =? 1
    then Ok 0 (says "    Page freed successfully!\n"
                 (set_pmap (page_decref (pmap k) pp) k))
    else Ok 0 (says "   failed\n" k).
Proof.
  intros Hpa Hr. unfold mon_free_page, bind, call_pa2page. cbn [Z.eqb Pos.eqb negb].
  unfold addr_arg in Hpa. rewrite Hpa, (read_pp_ref_ok _ _ _ Hr).
  now destruct (r =? 1).
Qed.

End PageCommands.

(** C5: [page_status] with exactly one address argument never changes
    the allocator state (nor anything but the console), and when the
    argument resolves to a descriptor it returns 0 after printing
    Allocated if the reference count is greater than zero and free
    otherwise. *)
Theorem mon_page_status_reports_and_preserves :
  forall (E : Extern) (fuel : nat) (argv : list string) (tf : Trapframe)
         (k : Kernel),
    (let k' := final (mon_page_status fuel 2 argv tf k) in
     pmap k' = pmap k /\ info k' = info k /\ stack k' = stack k /\
     ebp k' = ebp k /\ eip k' = eip k) /\
    (forall (pp : nat) (r : Z),
       pa2page (pmap k) (addr_arg argv) = Some pp ->
       ref_count (pmap k) pp = Some r ->
       (0 < r -> mon_page_status fuel 2 argv tf k =
                 Ok 0 (says "    Allocated\n" k)) /\
       (r <= 0 -> mon_page_status fuel 2 argv tf k =
                  Ok 0 (says "    free\n" k)) /\
       ref_count (pmap (final (mon_page_status fuel 2 argv tf k))) pp = Some r).
Proof.
  intros E fuel argv tf k. split; [apply mon_page_status_frame|].
  intros pp r Hpa Hr.
  rewrite (mon_page_status_ok fuel argv tf k pp r Hpa Hr).
  repeat split.
  - intros Hpos. apply Z.gtb_lt in Hpos. now rewrite Hpos.
  - intros Hle. destruct (r >? 0) eqn:Hgt; [|reflexivity].
    apply Z.gtb_lt in Hgt. lia.
  - now destruct (r >? 0).
Qed.

(** On the concrete kernel the verdict follows the address typed: page 1
    (held once) and page 2 (held twice) are Allocated, page 3 and page 0
    are free, and the page table is the same after each call. *)
Lemma mon_page_status_reports_and_preserves_witness :
  @mon_page_status Model.ext 0 2 ["page_status"; "0x1000"] 0 Model.k0 =
    Ok 0 (says "    Allocated\n" Model.k0) /\
  @mon_page_status Model.ext 0 2 ["page_status"; "0x2000"] 0 Model.k0 =
    Ok 0 (says "    Allocated\n" Model.k0) /\
  @mon_page_status Model.ext 0 2 ["page_status"; "0x3000"] 0 Model.k0 =
    Ok 0 (says "    free\n" Model.k0) /\
  @mon_page_status Model.ext 0 2 ["page_status"; "0"] 0 Model.k0 =
    Ok 0 (says "    free\n" Model.k0) /\
  ref_count
    (pmap (final (@mon_page_status Model.ext 0 2 ["page_status"; "0x2000"] 0
                    Model.k0))) 2 = Some 2 /\
  pmap (final (@mon_page_status Model.ext 0 2 ["page_status"; "0x9000"] 0
                 Model.k0)) = Model.pm0.
Proof.
  split; [|split; [|split; [|split; [|split]]]].
  - exact (proj1 (proj2 (mon_page_status_reports_and_preserves Model.ext 0
             ["page_status"; "0x1000"] 0 Model.k0) 1%nat 1 eq_refl eq_refl)
             eq_refl).
  - exact (proj1 (proj2 (mon_page_status_reports_and_preserves Model.ext 0
             ["page_status"; "0x2000"] 0 Model.k0) 2%nat 2 eq_refl eq_refl)
             eq_refl).
  - exact (proj1 (proj2 (proj2 (mon_page_status_reports_and_preserves
             Model.ext 0 ["page_status"; "0x3000"] 0 Model.k0) 3%nat 0
             eq_refl eq_refl)) (Z.le_refl 0)).
  - exact (proj1 (proj2 (proj2 (mon_page_status_reports_and_preserves
             Model.ext 0 ["page_status"; "0"] 0 Model.k0) 0%nat 0
             eq_refl eq_refl)) (Z.le_refl 0)).
  - exact (proj2 (proj2 (proj2 (mon_page_status_reports_and_preserves
             Model.ext 0 ["page_status"; "0x2000"] 0 Model.k0) 2%nat 2
             eq_refl eq_refl))).
  - exact (proj1 (proj1 (mon_page_status_reports_and_preserves Model.ext 0
             ["page_status"; "0x9000"] 0 Model.k0))).
Defined.

(** C4: [free_page] with exactly one address argument that resolves to a
    descriptor: when the reference count is 1 it calls [page_decref] on
    that descriptor, prints success and returns 0, and the count is then
    zero provided [page_decref] decrements it; for every other count it
    prints failure, returns 0 and leaves the whole state but the console
    as it was. *)
Theorem mon_free_page_only_sole_reference :
  forall (E : Extern) (fuel : nat) (argv : list string) (tf : Trapframe)
         (k : Kernel) (pp : nat) (r : Z),
    pa2page (pmap k) (addr_arg argv) = Some pp ->
    ref_count (pmap k) pp = Some r ->
    (r = 1 ->
     mon_free_page fuel 2 argv tf k =
       Ok 0 (says "    Page freed successfully!\n"
               (set_pmap (page_decref (pmap k) pp) k)) /\
     (ref_count (page_decref (pmap k) pp) pp = Some (uint16 (r - 1)) ->
      ref_count (pmap (final (mon_free_page fuel 2 argv tf k))) pp = Some 0)) /\
    (r <> 1 ->
     mon_free_page fuel 2 argv tf k = Ok 0 (says "   failed\n" k) /\
     pmap (final (mon_free_page fuel 2 argv tf k)) = pmap k /\
     ref_count (pmap (final (mon_free_page fuel 2 argv tf k))) pp = Some r).
Proof.
  intros E fuel argv tf k pp r Hpa Hr.
  rewrite (mon_free_page_ok fuel argv tf k pp r Hpa Hr).
  split.
  - intros ->. cbn [Z.eqb Pos.eqb]. split; [reflexivity|].
    intros Hdec. cbn [final says set_console set_pmap pmap]. exact Hdec.
  - intros Hne. apply Z.eqb_neq in Hne. rewrite Hne.
    now repeat split.
Qed.

(** On the concrete kernel page 1 is held once and is freed; page 2 is
    held twice and page 0 is free, and both keep their count. *)
Lemma mon_free_page_only_sole_reference_witness :
  ref_count
    (pmap (final (@mon_free_page Model.ext 0 2 ["free_page"; "0x1000"] 0
                    Model.k0))) 1 = Some 0 /\
  ref_count
    (pmap (final (@mon_free_page Model.ext 0 2 ["free_page"; "0x2000"] 0
                    Model.k0))) 2 = Some 2 /\
  ref_count
    (pmap (final (@mon_free_page Model.ext 0 2 ["free_page"; "0"] 0
                    Model.k0))) 0 = Some 0.
Proof.
  split; [|split].
  - apply (proj1 (mon_free_page_only_sole_reference Model.ext 0
                    ["free_page"; "0x1000"] 0 Model.k0 1%nat 1
                    eq_refl eq_refl) eq_refl).
    reflexivity.
  - apply (proj2 (mon_free_page_only_sole_reference Model.ext 0
                    ["free_page"; "0x2000"] 0 Model.k0 2%nat 2
                    eq_refl eq_refl)).
    discriminate.
  - apply (proj2 (mon_free_page_only_sole_reference Model.ext 0
                    ["free_page"; "0"] 0 Model.k0 0%nat 0
                    eq_refl eq_refl)).
    discriminate.
Defined.

Lemma page_status_verdict (E : Extern) (fuel : nat) (argv : list string)
    (tf : Trapframe) (k : Kernel) :
  page_status_said k (final (mon_page_status fuel 2 argv tf k)).
Proof.
  unfold page_status_said, mon_page_status, bind, call_pa2page, read_pp_ref.
  cbn [Z.eqb Pos.eqb negb].
  destruct (pa2page _ _) as [pp|]; [|now left].
  destruct (pages (pmap k) !! pp) as [pg|]; [|now left].
  destruct (pp_ref pg >? 0); cbn; auto.
Qed.

Lemma free_page_verdict (E : Extern) (fuel : nat) (argv : list string)
    (tf : Trapframe) (k : Kernel) :
  free_page_said k (final (mon_free_page fuel 2 argv tf k)).
Proof.
  unfold free_page_said, mon_free_page, bind, call_pa2page, read_pp_ref.
  cbn [Z.eqb Pos.eqb negb].
  destruct (pa2page _ _) as [pp|]; [|now left].
  destruct (pages (pmap k) !! pp) as [pg|]; [|now left].
  destruct (pp_ref pg =? 1); cbn; auto.
Qed.

(** C9 (as amended): the page commands do not validate their address
    argument.  They use the value [strtol] returns for it, whatever the
    text: two arguments with the same value give the same outcome, and
    all either command prints is its one-line verdict. *)
Theorem page_commands_trust_strtol :
  forall (E : Extern) (fuel : nat) (argv argv' : list string)
         (tf : Trapframe) (k : Kernel),
    addr_arg argv = addr_arg argv' ->
    mon_page_status fuel 2 argv tf k = mon_page_status fuel 2 argv' tf k /\
    mon_free_page fuel 2 argv tf k = mon_free_page fuel 2 argv' tf k /\
    page_status_said k (final (mon_page_status fuel 2 argv tf k)) /\
    free_page_said k (final (mon_free_page fuel 2 argv tf k)).
Proof.
  intros E fuel argv argv' tf k Heq. unfold addr_arg in Heq.
  repeat split.
  - unfold mon_page_status. cbn [Z.eqb Pos.eqb negb]. now rewrite Heq.
  - unfold mon_free_page. cbn [Z.eqb Pos.eqb negb]. now rewrite Heq.
  - apply page_status_verdict.
  - apply free_page_verdict.
Qed.

(** The argument xyz and the argument 0 have the same value, so the two
    commands treat them alike. *)
Lemma page_commands_trust_strtol_witness :
  @mon_page_status Model.ext 0 2 ["page_status"; "xyz"] 0 Model.k0 =
  @mon_page_status Model.ext 0 2 ["page_status"; "0"] 0 Model.k0 /\
  @mon_free_page Model.ext 0 2 ["free_page"; "xyz"] 0 Model.k0 =
  @mon_free_page Model.ext 0 2 ["free_page"; "0"] 0 Model.k0.
Proof.
  pose proof (page_commands_trust_strtol Model.ext 0
                ["page_status"; "xyz"] ["page_status"; "0"] 0 Model.k0
                eq_refl) as H.
  split; [exact (proj1 H) | exact (proj1 (proj2 H))].
Defined.

(** C9 (as stated) fails: the argument xyz is not a number, [strtol]
    yields 0 for it, and [page_status] answers for the page at address 0
    without a word about the argument; so does [free_page]. *)
Lemma malformed_address_read_as_zero :
  Model.strtol "xyz" 0 = 0 /\
  @mon_page_status Model.ext 0 2 ["page_status"; "xyz"] 0 Model.k0 =
    Ok 0 (says "    free\n" Model.k0) /\
  @mon_page_status Model.ext 0 2 ["page_status"; "0"] 0 Model.k0 =
    Ok 0 (says "    free\n" Model.k0) /\
  @mon_free_page Model.ext 0 2 ["free_page"; "xyz"] 0 Model.k0 =
    Ok 0 (says "   failed\n" Model.k0) /\
  @mon_free_page Model.ext 0 2 ["free_page"; "0"] 0 Model.k0 =
    Ok 0 (says "   failed\n" Model.k0).
Proof. repeat split. Qed.

(** ** Dispatch *)

Lemma nat_of_ascii_nul (c : ascii) :
  Ascii.eqb c NUL = false -> Z.of_nat (nat_of_ascii c) <> 0.
Proof.
  intros Hc Hz. apply Ascii.eqb_neq in Hc. apply Hc.
  rewrite <- (ascii_nat_embedding c).
  replace (nat_of_ascii c) with O by lia. reflexivity.
Qed.

Lemma nat_of_ascii_inj (c d : ascii) :
  nat_of_ascii c = nat_of_ascii d -> c = d.
Proof.
  intros H. rewrite <- (ascii_nat_embedding c), <- (ascii_nat_embedding d).
  now rewrite H.
Qed.

(** On C strings, [strcmp] returns 0 exactly on equal strings. *)
Lemma strcmp_eqb (p : string) : forall q : string,
  nul_free p = true -> nul_free q = true ->
  (strcmp p q =? 0) = String.eqb p q.
Proof.
  unfold nul_free.
  induction p as [|c p IH]; intros [|d q] Hp Hq; cbn [strcmp String.eqb].
  - reflexivity.
  - cbn in Hq. apply andb_true_iff in Hq as [Hd _].
    apply negb_true_iff, nat_of_ascii_nul in Hd.
    apply Z.eqb_neq. lia.
  - cbn in Hp. apply andb_true_iff in Hp as [Hc _].
    apply negb_true_iff, nat_of_ascii_nul in Hc.
    apply Z.eqb_neq. lia.
  - cbn in Hp, Hq.
    apply andb_true_iff in Hp as [_ Hp]. apply andb_true_iff in Hq as [_ Hq].
    destruct (Ascii.eqb c d) eqn:Hcd; [now apply IH|].
    apply Ascii.eqb_neq in Hcd. apply Z.eqb_neq. intros Hz.
    apply Hcd, nat_of_ascii_inj. lia.
Qed.

Lemma token_nul_free (tok : list ascii) :
  forallb tok_char tok = true -> nul_free (string_of_list_ascii tok) = true.
Proof.
  unfold nul_free. rewrite list_ascii_of_string_of_list_ascii.
  induction tok as [|c tok IH]; [reflexivity|].
  cbn [forallb]. intros H. apply andb_true_iff in H as [Hc Htok].
  rewrite (tok_char_not_nul _ Hc). now rewrite IH.
Qed.

Section Dispatch.

Context {E : Extern}.

Lemma lookup_first_match (cmds : list Command) (fuel : nat) (argc : Z)
    (argv : list string) (tf : Trapframe) (k : Kernel) :
  lookup cmds fuel argc argv tf k =
    match first_match cmds (argv_at argv 0) with
    | Some c => func c fuel argc argv tf k
    | None => Ok 0 (unknown_command (argv_at argv 0) k)
    end.
Proof.
  unfold first_match.
  induction cmds as [|c cmds IH]; [reflexivity|].
  cbn [lookup find]. now destruct (strcmp _ _ =? 0).
Qed.

(** The names of the table are C strings, so on an argument that is one
    the loop's test is string equality. *)
Lemma commands_first_match (a0 : string) :
  nul_free a0 = true ->
  first_match commands a0 = find (fun c => String.eqb a0 (name c)) commands.
Proof.
  intros Ha. unfold first_match, commands. cbn [find name].
  rewrite !strcmp_eqb by (assumption || reflexivity). reflexivity.
Qed.

Lemma commands_info :
  map (fun c => (name c, desc c)) commands = command_info.
Proof. reflexivity. Qed.

(** [runcmd] once the line is tokenized. *)
Lemma runcmd_parsed (fuel : nat) (line : string) (tf : Trapframe)
    (argv : list string) :
  argv_of (tokenize line) = Some argv ->
  runcmd fuel line tf =
    if Z.of_nat (length argv) =? 0 then ret 0
    else lookup commands fuel (Z.of_nat (length argv)) argv tf.
Proof.
  unfold runcmd. destruct (tokenize line) as [buf offs| |]; try discriminate.
  cbn [argv_of]. intros [= <-]. now rewrite length_map.
Qed.

(** [runcmd] on a line with too many arguments. *)
Lemma runcmd_too_many (fuel : nat) (line : string) (tf : Trapframe)
    (k : Kernel) :
  tokenize line = TooMany ->
  runcmd fuel line tf k =
    Ok 0 (set_console
            (console k ++ [Cprintf "Too many arguments (max %d)\n" [ArgInt 16]]) k).
Proof. unfold runcmd. now intros ->. Qed.

End Dispatch.

(** C8: on a tokenized line, [runcmd] does nothing and returns 0 when
    there is no token; otherwise it compares the first token with the
    names of the table in table order, by string equality, and runs the
    handler of the first row that matches on the whole argument vector
    and the trap frame, returning what the handler returns; when no row
    matches it prints one Unknown command line and returns 0.  The loop
    picks the first match on any table. *)
Theorem runcmd_dispatches_first_match :
  forall (E : Extern) (fuel : nat) (line : string) (tf : Trapframe)
         (k : Kernel) (argv : list string),
    argv_of (tokenize line) = Some argv ->
    (argv = [] -> runcmd fuel line tf k = Ok 0 k) /\
    (forall (a0 : string) (rest : list string),
       argv = a0 :: rest ->
       runcmd fuel line tf k =
         match find (fun c => String.eqb a0 (name c)) commands with
         | Some c => func c fuel (Z.of_nat (length argv)) argv tf k
         | None => Ok 0 (unknown_command a0 k)
         end) /\
    (forall (cmds : list Command) (argc : Z),
       lookup cmds fuel argc argv tf k =
         match first_match cmds (argv_at argv 0) with
         | Some c => func c fuel argc argv tf k
         | None => Ok 0 (unknown_command (argv_at argv 0) k)
         end).
Proof.
  intros E fuel line tf k argv Hargv.
  rewrite (runcmd_parsed fuel line tf argv Hargv).
  split; [|split].
  - now intros ->.
  - intros a0 rest ->.
    destruct (tokenize_sound line _ Hargv) as (toks & Hsplit & Hmap & _).
    assert (Ha0 : nul_free a0 = true).
    { destruct toks as [|tok toks]; [discriminate|].
      cbn [map] in Hmap. injection Hmap as -> _.
      apply Split_tokens in Hsplit. inversion Hsplit as [|? ? [_ Htok] _].
      now apply token_nul_free. }
    replace (Z.of_nat (length (a0 :: rest)) =? 0) with false
      by (symmetry; apply Z.eqb_neq; cbn [length]; lia).
    rewrite lookup_first_match. cbn [argv_at nth].
    now rewrite commands_first_match.
  - intros cmds argc. apply lookup_first_match.
Qed.

(** A line that names a command runs its handler on the two tokens; a
    name in the wrong case is unknown; a blank line does nothing. *)
Lemma runcmd_dispatches_first_match_witness :
  @runcmd Model.ext 0 "page_status 0x1000" 0 Model.k0 =
    @mon_page_status Model.ext 0 2 ["page_status"; "0x1000"] 0 Model.k0 /\
  @runcmd Model.ext 0 "Help me" 0 Model.k0 =
    Ok 0 (unknown_command "Help" Model.k0) /\
  @runcmd Model.ext 0 "   " 0 Model.k0 = Ok 0 Model.k0.
Proof.
  split; [|split].
  - exact (proj1 (proj2 (runcmd_dispatches_first_match Model.ext 0
             "page_status 0x1000" 0 Model.k0 ["page_status"; "0x1000"]
             eq_refl)) "page_status" ["0x1000"] eq_refl).
  - exact (proj1 (proj2 (runcmd_dispatches_first_match Model.ext 0
             "Help me" 0 Model.k0 ["Help"; "me"] eq_refl))
             "Help" ["me"] eq_refl).
  - exact (proj1 (runcmd_dispatches_first_match Model.ext 0
             "   " 0 Model.k0 [] eq_refl) eq_refl).
Defined.

(** ** The argument limit *)

(** [runcmd] on any line with more than 15 tokens prints the limit
    message and returns 0 with nothing else changed; on any line with at
    most 15 tokens the tokenizer hands all of them over. *)
Lemma runcmd_limit (E : Extern) (line : string) (toks : list (list ascii)) :
  Split (list_ascii_of_string line) toks ->
  ((15 < length toks)%nat ->
   forall (fuel : nat) (tf : Trapframe) (k : Kernel),
     runcmd fuel line tf k =
       Ok 0 (set_console
               (console k ++ [Cprintf "Too many arguments (max %d)\n" [ArgInt 16]]) k)) /\
  ((length toks <= 15)%nat ->
   argv_of (tokenize line) = Some (map string_of_list_ascii toks)).
Proof.
  intros H. destruct (tokenize_Split line toks H) as [H1 H2].
  split; [|exact H1].
  intros Hgt fuel tf k. apply runcmd_too_many. now apply H2.
Qed.

Lemma Split_line16 : Split (list_ascii_of_string line16) toks16.
Proof.
  unfold line16, toks16. cbn [list_ascii_of_string map].
  repeat (first
    [ apply (Split_tok [_] _ _); [discriminate | reflexivity | reflexivity |]
    | apply Split_ws; [reflexivity|]
    | apply Split_end; reflexivity ]).
Qed.

(** C6 (the code at the failing input): a line of exactly 16 tokens, the
    number the message gives as the maximum, is refused: the tokenizer
    returns early, [runcmd] prints the limit message and returns 0
    without running a handler.  A line of 15 tokens is accepted. *)
Theorem sixteen_arguments_refused :
  Split (list_ascii_of_string line16) toks16 /\
  Z.of_nat (length toks16) = MAXARGS /\
  tokenize line16 = TooMany /\
  (forall (E : Extern) (fuel : nat) (tf : Trapframe) (k : Kernel),
     runcmd fuel line16 tf k =
       Ok 0 (set_console
               (console k ++ [Cprintf "Too many arguments (max %d)\n" [ArgInt MAXARGS]]) k)) /\
  argv_of (tokenize "a b c d e f g h i j k l m n o") =
    Some ["a"; "b"; "c"; "d"; "e"; "f"; "g"; "h"; "i"; "j"; "k"; "l"; "m";
          "n"; "o"].
Proof.
  split; [exact Split_line16|].
  split; [reflexivity|]. split; [reflexivity|]. split; [|reflexivity].
  intros E fuel tf k. now apply runcmd_too_many.
Qed.

(** C7: the tokens [runcmd] extracts from a line are the spec's split of
    the line on space, tab, carriage return and newline: each is a
    non-empty run without whitespace, in line order, and up to 15 of them
    the whole split is extracted.  The line with free_page and 0x1000
    among spaces gives these two tokens; an empty line and a line of
    whitespace give none. *)
Theorem tokenize_splits_on_whitespace :
  (forall c : ascii,
     ws_char c = true <->
     c = " "%char \/ c = ascii_of_nat 9 \/ c = ascii_of_nat 13 \/
     c = ascii_of_nat 10) /\
  (forall (line : string) (argv : list string),
     argv_of (tokenize line) = Some argv ->
     exists toks : list (list ascii),
       Split (list_ascii_of_string line) toks /\
       argv = map string_of_list_ascii toks /\
       Forall (fun tok => tok <> [] /\ forallb tok_char tok = true) toks) /\
  (forall (line : string) (toks : list (list ascii)),
     Split (list_ascii_of_string line) toks -> (length toks <= 15)%nat ->
     argv_of (tokenize line) = Some (map string_of_list_ascii toks)) /\
  argv_of (tokenize "  free_page   0x1000 ") = Some ["free_page"; "0x1000"] /\
  argv_of (tokenize "") = Some [] /\
  (forall line : string,
     forallb ws_char (list_ascii_of_string line) = true ->
     argv_of (tokenize line) = Some []).
Proof.
  split; [|split; [|split; [|split; [|split]]]].
  - intros c. unfold ws_char, strchr, WHITESPACE. cbn [existsb].
    rewrite orb_false_r. split.
    + intros H. apply andb_true_iff in H as [_ H].
      repeat (apply orb_true_iff in H as [H | H]);
        apply Ascii.eqb_eq in H; auto.
    + intros [-> | [-> | [-> | ->]]]; reflexivity.
  - intros line argv Hargv.
    destruct (tokenize_sound line argv Hargv) as (toks & Hsplit & Hmap & _).
    exists toks. repeat split; try assumption.
    now apply Split_tokens in Hsplit.
  - intros line toks Hsplit Hle. now apply (tokenize_Split line toks Hsplit).
  - reflexivity.
  - reflexivity.
  - intros line Hws. apply Split_blank in Hws.
    now apply (tokenize_Split line [] Hws); cbn [length]; lia.
Qed.

(** ** Return values *)

Lemma returns_zero_ret : returns_zero (ret 0).
Proof. intros k r k' H. unfold ret in H. congruence. Qed.


Lemma returns_zero_stuck : returns_zero out_of_fuel.
Proof. intros k r k' H. discriminate. Qed.

Create HintDb ret0.
#[local] Hint Resolve returns_zero_ret returns_zero_stuck : ret0.


Section ReturnValues.

Context {E : Extern}.













End ReturnValues.

(** ** The backtrace *)

Section Backtrace.

Context {E : Extern}.

Lemma dump_stack_run (p : Z) (k : Kernel) (out : list event)
    (i : Eipdebuginfo) :
  dump_stack p (mk k out i) =
    Ok (stack k p) (mk k (out ++ dump_out (stack k) p) i).
Proof.
  unfold dump_stack, dump_out, ret_addr, bind, J_ARG_N, J_NEXT_EBP, get,
    cprintf, set_console, mk.
  cbn -[uint32 Z.add Z.mul]. f_equal. f_equal.
  rewrite <- !app_assoc. reflexivity.
Qed.

Lemma dump_backstrace_symbols_run (p : Z) (k : Kernel) (out : list event)
    (i : Eipdebuginfo) :
  dump_backstrace_symbols p (mk k out i) =
    Ok (stack k p)
       (mk k (out ++ [sym_line i]) (resolved (ret_addr (stack k) p) i)).
Proof.
  unfold dump_backstrace_symbols, sym_line, resolved, ret_addr, bind,
    J_ARG_N, J_NEXT_EBP, call_debuginfo_eip, get, cprintf, set_console,
    set_info, mk.
  cbn -[uint32 Z.add Z.mul]. f_equal. f_equal.
  rewrite <- !app_assoc. reflexivity.
Qed.

(** The dump pass on a chain of [n + 1] frames, with at least as many
    rounds: it dumps these frames and halts. *)
Lemma dump_pass_halts (n : nat) : forall (p : Z) (k : Kernel)
    (out : list event) (i : Eipdebuginfo) (fuel : nat),
  (forall j, (j < n)%nat -> frame_at (stack k) p (S j) <> 0) ->
  frame_at (stack k) p (S n) = 0 -> (S n <= fuel)%nat ->
  do_while fuel dump_stack p (mk k out i) =
    Ok tt (mk k (out ++ flat_map (dump_out (stack k)) (frames (stack k) p (S n))) i).
Proof.
  induction n as [|n IH]; intros p k out i fuel Hnz Hz Hfuel;
    (destruct fuel as [|fuel]; [lia|]);
    cbn [do_while]; unfold bind at 1; rewrite dump_stack_run.
  - cbn [frame_at] in Hz. rewrite Hz. cbn [Z.eqb frames flat_map].
    now rewrite app_nil_r.
  - assert (Hp : stack k p <> 0) by (apply (Hnz O); lia).
    apply Z.eqb_neq in Hp. rewrite Hp.
    rewrite IH; [| intros j Hj; apply (Hnz (S j)); lia | exact Hz | lia].
    cbn [frames flat_map]. now rewrite <- !app_assoc.
Qed.

(** The dump pass while no saved frame pointer is the sentinel: every
    round dumps a frame and the loop goes on. *)
Lemma dump_pass_runs (fuel : nat) : forall (p : Z) (k : Kernel)
    (out : list event) (i : Eipdebuginfo),
  (forall j, (j < fuel)%nat -> frame_at (stack k) p (S j) <> 0) ->
  do_while fuel dump_stack p (mk k out i) =
    OutOfFuel (mk k (out ++ flat_map (dump_out (stack k)) (frames (stack k) p fuel)) i).
Proof.
  induction fuel as [|fuel IH]; intros p k out i Hnz; cbn [do_while].
  - cbn [frames flat_map]. now rewrite app_nil_r.
  - unfold bind at 1. rewrite dump_stack_run.
    assert (Hp : stack k p <> 0) by (apply (Hnz O); lia).
    apply Z.eqb_neq in Hp. rewrite Hp.
    rewrite IH; [| intros j Hj; apply (Hnz (S j)); lia].
    cbn [frames flat_map]. now rewrite <- !app_assoc.
Qed.

(** The symbol pass on a chain of [n + 1] frames, with at least as many
    rounds: one line per frame, then it halts. *)
Lemma symbol_pass_halts (n : nat) : forall (p : Z) (k : Kernel)
    (out : list event) (i : Eipdebuginfo) (fuel : nat),
  (forall j, (j < n)%nat -> frame_at (stack k) p (S j) <> 0) ->
  frame_at (stack k) p (S n) = 0 -> (S n <= fuel)%nat ->
  do_while fuel dump_backstrace_symbols p (mk k out i) =
    Ok tt (mk k (out ++ map sym_line (sym_infos (stack k) i (frames (stack k) p (S n))))
             (sym_last (stack k) i (frames (stack k) p (S n)))).
Proof.
  induction n as [|n IH]; intros p k out i fuel Hnz Hz Hfuel;
    (destruct fuel as [|fuel]; [lia|]);
    cbn [do_while]; unfold bind at 1; rewrite dump_backstrace_symbols_run.
  - cbn [frame_at] in Hz. rewrite Hz. reflexivity.
  - assert (Hp : stack k p <> 0) by (apply (Hnz O); lia).
    apply Z.eqb_neq in Hp. rewrite Hp.
    rewrite IH; [| intros j Hj; apply (Hnz (S j)); lia | exact Hz | lia].
    cbn [frames sym_infos sym_last map]. now rewrite <- !app_assoc.
Qed.

End Backtrace.

Lemma frames_length (mem : Z -> Z) (n : nat) : forall p : Z,
  length (frames mem p n) = n.
Proof. induction n as [|n IH]; intros p; cbn [frames length]; auto. Qed.

Lemma frames_nth (mem : Z -> Z) (n : nat) : forall (p : Z) (j : nat),
  (j < n)%nat -> nth_error (frames mem p n) j = Some (frame_at mem p j).
Proof.
  induction n as [|n IH]; intros p j Hj; [lia|].
  destruct j as [|j]; [reflexivity|].
  cbn [frames nth_error frame_at]. apply IH. lia.
Qed.

Lemma frame_at_add (mem : Z -> Z) (a : nat) : forall (p : Z) (b : nat),
  frame_at mem p (a + b) = frame_at mem (frame_at mem p a) b.
Proof. induction a as [|a IH]; intros p b; cbn [Nat.add frame_at]; auto. Qed.

(** What [chain] says, hop by hop. *)
Lemma chain_spec (mem : Z -> Z) (p : Z) (N : nat) :
  chain mem p N = true ->
  exists n : nat,
    N = S n /\ frame_at mem p (S n) = 0 /\
    forall j, (j < n)%nat -> frame_at mem p (S j) <> 0.
Proof.
  unfold chain. intros H.
  apply andb_true_iff in H as [H Hall]. apply andb_true_iff in H as [HN Hz].
  apply Nat.leb_le in HN. apply Z.eqb_eq in Hz.
  destruct N as [|n]; [lia|]. exists n. repeat split; [assumption|].
  intros j Hj. rewrite forallb_forall in Hall.
  specialize (Hall (S j)). rewrite in_seq in Hall.
  apply Z.eqb_neq, negb_true_iff, Hall. lia.
Qed.

(** On a chain with a cycle no saved frame pointer is the sentinel. *)
Lemma cycle_never_zero (mem : Z -> Z) (p : Z) (i j : nat) :
  has_cycle mem p i j = true -> forall n : nat, frame_at mem p (S n) <> 0.
Proof.
  unfold has_cycle. intros H.
  apply andb_true_iff in H as [H Hall]. apply andb_true_iff in H as [Hij Hback].
  apply Nat.leb_le in Hij. apply Z.eqb_eq in Hback.
  rewrite forallb_forall in Hall.
  assert (Hlow : forall m, (1 <= m <= S j)%nat -> frame_at mem p m <> 0).
  { intros m Hm. apply Z.eqb_neq, negb_true_iff, Hall, in_seq. lia. }
  intros n. induction n as [n IH] using lt_wf_ind.
  destruct (Nat.le_gt_cases n j) as [Hle | Hgt]; [apply Hlow; lia|].
  replace (S n) with (S j + (n - j))%nat by lia.
  rewrite frame_at_add, Hback, <- frame_at_add.
  destruct (i + (n - j))%nat as [|m] eqn:Hm; [lia|].
  apply IH. lia.
Qed.

Section BacktraceCommand.

Context {E : Extern}.

(** [mon_backtrace] as its two loops, run from the state its first
    statements lead to. *)
Lemma mon_backtrace_passes (fuel : nat) (argc : Z) (argv : list string)
    (tf : Trapframe) (k : Kernel) :
  mon_backtrace fuel argc argv tf k =
    match do_while fuel dump_stack (ebp k)
            (mk k (backtrace_head k) (resolved (eip k) (info k))) with
    | Ok _ k1 =>
        match do_while fuel dump_backstrace_symbols (ebp k1)
                (mk k1 [Cprintf "\n" []] (info k1)) with
        | Ok _ k2 => Ok 0 k2
        | Panic k2 => Panic k2
        | OutOfFuel k2 => OutOfFuel k2
        end
    | Panic k1 => Panic k1
    | OutOfFuel k1 => OutOfFuel k1
    end.
Proof.
  unfold mon_backtrace, bind, read_ebp, read_eip, get, cprintf,
    call_debuginfo_eip, ret.
  cbn [fst snd].
  replace (set_console _ (set_info _ _))
    with (mk k (backtrace_head k) (resolved (eip k) (info k)))
    by (unfold mk, set_console, set_info, backtrace_head, resolved;
        cbn; now rewrite <- app_assoc).
  destruct (do_while fuel dump_stack _ _) as [[] k1 | k1 | k1]; reflexivity.
Qed.

Lemma mk_mk (k : Kernel) (out out' : list event) (i i' : Eipdebuginfo) :
  mk (mk k out i) out' i' = mk k (out ++ out') i'.
Proof. unfold mk. cbn. now rewrite <- app_assoc. Qed.

(** The whole command on a chain of [n + 1] frames. *)
Lemma mon_backtrace_chain (fuel : nat) (argc : Z) (argv : list string)
    (tf : Trapframe) (k : Kernel) (n : nat) :
  (forall j, (j < n)%nat -> frame_at (stack k) (ebp k) (S j) <> 0) ->
  frame_at (stack k) (ebp k) (S n) = 0 -> (S n <= fuel)%nat ->
  let fs := frames (stack k) (ebp k) (S n) in
  let i1 := resolved (eip k) (info k) in
  mon_backtrace fuel argc argv tf k =
    Ok 0 (mk k (backtrace_head k ++ flat_map (dump_out (stack k)) fs ++
                [Cprintf "\n" []] ++ map sym_line (sym_infos (stack k) i1 fs))
             (sym_last (stack k) i1 fs)).
Proof.
  intros Hnz Hz Hfuel fs i1. rewrite mon_backtrace_passes.
  rewrite dump_pass_halts with (n := n) by assumption.
  cbn [ebp info stack mk]. rewrite mk_mk.
  rewrite symbol_pass_halts with (n := n) by assumption.
  f_equal. unfold mk. cbn. f_equal. now rewrite <- !app_assoc.
Qed.

(** The whole command while no saved frame pointer is the sentinel: it
    is still in the dump pass after any number of rounds. *)
Lemma mon_backtrace_endless (fuel : nat) (argc : Z) (argv : list string)
    (tf : Trapframe) (k : Kernel) :
  (forall j, (j < fuel)%nat -> frame_at (stack k) (ebp k) (S j) <> 0) ->
  mon_backtrace fuel argc argv tf k =
    OutOfFuel
      (mk k (backtrace_head k ++
             flat_map (dump_out (stack k)) (frames (stack k) (ebp k) fuel))
          (resolved (eip k) (info k))).
Proof.
  intros Hnz. rewrite mon_backtrace_passes.
  now rewrite dump_pass_runs by assumption.
Qed.

Lemma sym_infos_length (mem : Z -> Z) (fs : list Z) : forall i,
  length (sym_infos mem i fs) = length fs.
Proof. induction fs as [|p fs IH]; intros i; cbn [sym_infos length]; auto. Qed.

(** Each record the symbol pass prints after the first comes from the
    return address of the frame before. *)
Lemma sym_infos_step (mem : Z -> Z) (j : nat) : forall (n : nat) (p : Z) i,
  (S j < n)%nat ->
  exists ij,
    nth_error (sym_infos mem i (frames mem p n)) j = Some ij /\
    nth_error (sym_infos mem i (frames mem p n)) (S j) =
      Some (resolved (ret_addr mem (frame_at mem p j)) ij).
Proof.
  induction j as [|j IH]; intros n p i Hj.
  - destruct n as [|[|n]]; [lia | lia |]. exists i. now split.
  - destruct n as [|n]; [lia|].
    destruct (IH n (mem p) (resolved (ret_addr mem p) i)) as (ij & H1 & H2);
      [lia|].
    exists ij. cbn [frames sym_infos frame_at]. now split.
Qed.

End BacktraceCommand.

(** C1: on a frame-pointer chain of length N (the N-th saved frame
    pointer is the zero sentinel) each pass of the backtrace visits
    exactly the N frames of the chain and halts: given N rounds or more,
    the dump pass prints the dump of frames 0 to N-1 and stops, the
    symbol pass prints N lines and stops, and the command returns 0;
    with fewer than N rounds the dump pass is still running. *)
Theorem backtrace_visits_chain_and_halts :
  forall (E : Extern) (fuel : nat) (argc : Z) (argv : list string)
         (tf : Trapframe) (k : Kernel) (N : nat),
    chain (stack k) (ebp k) N = true ->
    let fs := frames (stack k) (ebp k) N in
    let i1 := resolved (eip k) (info k) in
    length fs = N /\
    (forall j, (j < N)%nat ->
       nth_error fs j = Some (frame_at (stack k) (ebp k) j)) /\
    ((N <= fuel)%nat ->
     (forall out i,
        do_while fuel dump_stack (ebp k) (mk k out i) =
          Ok tt (mk k (out ++ flat_map (dump_out (stack k)) fs) i)) /\
     (forall out i,
        do_while fuel dump_backstrace_symbols (ebp k) (mk k out i) =
          Ok tt (mk k (out ++ map sym_line (sym_infos (stack k) i fs))
                   (sym_last (stack k) i fs)) /\
        length (map sym_line (sym_infos (stack k) i fs)) = N) /\
     mon_backtrace fuel argc argv tf k =
       Ok 0 (mk k (backtrace_head k ++ flat_map (dump_out (stack k)) fs ++
                   [Cprintf "\n" []] ++
                   map sym_line (sym_infos (stack k) i1 fs))
                (sym_last (stack k) i1 fs))) /\
    ((fuel < N)%nat ->
     forall out i,
       do_while fuel dump_stack (ebp k) (mk k out i) =
         OutOfFuel
           (mk k (out ++ flat_map (dump_out (stack k))
                           (frames (stack k) (ebp k) fuel)) i)).
Proof.
  intros E fuel argc argv tf k N Hchain fs i1.
  destruct (chain_spec _ _ _ Hchain) as (n & -> & Hz & Hnz).
  split; [apply frames_length|]. split; [apply frames_nth|]. split.
  - intros Hfuel. split; [|split].
    + intros out i. now apply dump_pass_halts.
    + intros out i. split; [now apply symbol_pass_halts|].
      subst fs. now rewrite length_map, sym_infos_length, frames_length.
    + now apply mon_backtrace_chain.
  - intros Hfuel out i. apply dump_pass_runs.
    intros j Hj. apply Hnz. lia.
Qed.

(** The three frames of the concrete stack: the command returns after
    three rounds of each pass. *)
Lemma backtrace_visits_chain_and_halts_witness :
  length (frames Model.stack3 4096 3) = 3%nat /\
  @mon_backtrace Model.ext 3 1 ["backtrace"] 0 Model.k0 =
    Ok 0 (mk Model.k0
            (backtrace_head Model.k0 ++
             flat_map (dump_out Model.stack3) (frames Model.stack3 4096 3) ++
             [Cprintf "\n" []] ++
             map sym_line
               (@sym_infos Model.ext Model.stack3
                  (@resolved Model.ext 4027584600 info_zero)
                  (frames Model.stack3 4096 3)))
            (@sym_last Model.ext Model.stack3
               (@resolved Model.ext 4027584600 info_zero)
               (frames Model.stack3 4096 3))).
Proof.
  pose proof (backtrace_visits_chain_and_halts Model.ext 3 1 ["backtrace"] 0
                Model.k0 3 eq_refl) as (Hlen & _ & Hrun & _).
  split; [exact Hlen|].
  exact (proj2 (proj2 (Hrun (le_n 3)))).
Defined.

(** C2 (as amended): on a chain of length N the symbol pass prints one
    line per frame whatever the symbolizer returns, and the name and line
    printed for a frame are those of the record the symbolizer left at
    its previous call: for the first frame the call on the current
    instruction pointer, for every later frame the call on the saved
    return address of the frame before it. *)
Theorem symbol_pass_prints_previous_resolution :
  forall (E : Extern) (fuel : nat) (argc : Z) (argv : list string)
         (tf : Trapframe) (k : Kernel) (N : nat),
    chain (stack k) (ebp k) N = true -> (N <= fuel)%nat ->
    let fs := frames (stack k) (ebp k) N in
    let infos := sym_infos (stack k) (resolved (eip k) (info k)) fs in
    (exists k',
       mon_backtrace fuel argc argv tf k = Ok 0 k' /\
       console k' =
         console k ++ backtrace_head k ++
         flat_map (dump_out (stack k)) fs ++ [Cprintf "\n" []] ++
         map sym_line infos) /\
    length infos = N /\
    nth_error infos 0 = Some (resolved (eip k) (info k)) /\
    (forall j, (S j < N)%nat ->
       exists ij,
         nth_error infos j = Some ij /\
         nth_error infos (S j) =
           Some (resolved (ret_addr (stack k) (frame_at (stack k) (ebp k) j)) ij)).
Proof.
  intros E fuel argc argv tf k N Hchain Hfuel fs infos.
  destruct (chain_spec _ _ _ Hchain) as (n & -> & Hz & Hnz).
  split; [|split; [|split]].
  - eexists. split; [now apply mon_backtrace_chain with (n := n)|].
    reflexivity.
  - subst infos fs. now rewrite sym_infos_length, frames_length.
  - reflexivity.
  - intros j Hj. now apply sym_infos_step.
Qed.

(** On the concrete stack the first line is the record of the current
    instruction pointer and the second that of the return address saved
    in the first frame. *)
Lemma symbol_pass_prints_previous_resolution_witness :
  let infos :=
    @sym_infos Model.ext Model.stack3 (@resolved Model.ext 4027584600 info_zero)
      (frames Model.stack3 4096 3) in
  length infos = 3%nat /\
  nth_error infos 0 = Some (@resolved Model.ext 4027584600 info_zero) /\
  exists ij,
    nth_error infos 0 = Some ij /\
    nth_error infos 1 = Some (@resolved Model.ext 4027584800 ij).
Proof.
  pose proof (symbol_pass_prints_previous_resolution Model.ext 3 1
                ["backtrace"] 0 Model.k0 3 eq_refl (le_n 3))
    as (_ & Hlen & H0 & Hstep).
  split; [exact Hlen|]. split; [exact H0|].
  exact (Hstep O (le_S 2 2 (le_n 2))).
Defined.

(** C2 (as stated) fails: on the concrete stack the three symbol lines
    are those of the current instruction pointer and of the return
    addresses of frames 1 and 2 (the second unresolved, and the walk goes
    on), while the symbolizer applied to the return addresses of frames
    1, 2 and 3 gives other names. *)
Lemma symbol_line_is_not_of_own_frame :
  let printed :=
    symbol_lines
      (console (final (@mon_backtrace Model.ext 3 1 ["backtrace"] 0 Model.k0))) in
  let own :=
    map (fun p => sym_line (@resolved Model.ext (ret_addr Model.stack3 p) info_zero))
        (frames Model.stack3 4096 3) in
  printed =
    [Cprintf "%s %d\n" [ArgStr (Some "mon_backtrace"); ArgInt 171];
     Cprintf "%s %d\n" [ArgStr (Some "runcmd"); ArgInt 203];
     Cprintf "%s %d\n" [ArgStr (Some "<unknown>"); ArgInt 0]] /\
  own =
    [Cprintf "%s %d\n" [ArgStr (Some "runcmd"); ArgInt 203];
     Cprintf "%s %d\n" [ArgStr (Some "<unknown>"); ArgInt 0];
     Cprintf "%s %d\n" [ArgStr (Some "monitor"); ArgInt 242]] /\
  printed <> own.
Proof.
  intros printed own.
  assert (Hp : printed = [sym_line (@resolved Model.ext 4027584600 info_zero);
                          sym_line (@resolved Model.ext 4027584800 info_zero);
                          sym_line (@resolved Model.ext 1048600 info_zero)])
    by reflexivity.
  assert (Ho : own = [sym_line (@resolved Model.ext 4027584800 info_zero);
                      sym_line (@resolved Model.ext 1048600 info_zero);
                      sym_line (@resolved Model.ext 4027585100 info_zero)])
    by reflexivity.
  rewrite Hp, Ho. split; [reflexivity|]. split; [reflexivity|].
  intros H. injection H as H _. vm_compute in H. discriminate H.
Qed.

(** C3 (as amended): the unwinding loops have no frame-count bound.  On
    a chain with a cycle the command never halts: whatever the number of
    rounds allowed, the dump pass has dumped that many frames and is
    still running. *)
Theorem cyclic_chain_never_halts :
  forall (E : Extern) (fuel : nat) (argc : Z) (argv : list string)
         (tf : Trapframe) (k : Kernel) (i j : nat),
    has_cycle (stack k) (ebp k) i j = true ->
    mon_backtrace fuel argc argv tf k =
      OutOfFuel
        (mk k (backtrace_head k ++
               flat_map (dump_out (stack k)) (frames (stack k) (ebp k) fuel))
            (resolved (eip k) (info k))) /\
    length (frames (stack k) (ebp k) fuel) = fuel.
Proof.
  intros E fuel argc argv tf k i j Hcyc.
  split; [|apply frames_length].
  apply mon_backtrace_endless. intros n _.
  now apply (cycle_never_zero _ _ i j).
Qed.

(** On the concrete cyclic stack five rounds dump five frames and the
    loop has not halted. *)
Lemma cyclic_chain_never_halts_witness :
  @mon_backtrace Model.ext 5 1 ["backtrace"] 0 Model.k_cyc =
    OutOfFuel
      (mk Model.k_cyc
         (backtrace_head Model.k_cyc ++
          flat_map (dump_out Model.stack_cyc) [4096; 8192; 4096; 8192; 4096])
         (@resolved Model.ext 4027584600 info_zero)).
Proof.
  exact (proj1 (cyclic_chain_never_halts Model.ext 5 1 ["backtrace"] 0
                  Model.k_cyc 0 1 eq_refl)).
Defined.

(** C3 (as stated) fails: the concrete stack of two frames has a cycle
    (the second frame points back to the first), and no number of rounds
    lets the backtrace halt on it. *)
Lemma no_defensive_frame_bound :
  has_cycle Model.stack_cyc 4096 0 1 = true /\
  forall fuel : nat,
    exists k',
      @mon_backtrace Model.ext fuel 1 ["backtrace"] 0 Model.k_cyc =
        OutOfFuel k' /\
      (fuel <= length (console k'))%nat.
Proof.
  split; [reflexivity|]. intros fuel. eexists. split.
  - apply mon_backtrace_endless. intros n _.
    now apply (cycle_never_zero Model.stack_cyc 4096 0 1).
  - cbn [console mk]. rewrite !length_app.
    assert (H : forall (fs : list Z),
              (length fs <= length (flat_map (dump_out (stack Model.k_cyc)) fs))%nat).
    { induction fs as [|p fs IH]; cbn [flat_map length]; [lia|].
      rewrite length_app. cbn [dump_out length]. lia. }
    specialize (H (frames (stack Model.k_cyc) (ebp Model.k_cyc) fuel)).
    rewrite frames_length in H. lia.
Qed.

(** * Further properties of the monitor *)

(** ** What a command leaves as it was *)

Section Frame.

Context {E : Extern}.

Variable R : Kernel -> Kernel -> Prop.

Hypothesis R_refl : forall k, R k k.
Hypothesis R_trans : forall k1 k2 k3, R k1 k2 -> R k2 k3 -> R k1 k3.
Hypothesis R_print : forall k out, R k (set_console (console k ++ out) k).

Lemma keeps_ret {A : Type} (a : A) : keeps R (ret a).
Proof. intros k. apply R_refl. Qed.

Lemma keeps_get {A : Type} (f : Kernel -> A) : keeps R (get f).
Proof. intros k. apply R_refl. Qed.

Lemma keeps_panic {A : Type} : keeps R (@panic A).
Proof. intros k. apply R_refl. Qed.

Lemma keeps_out_of_fuel {A : Type} : keeps R (@out_of_fuel A).
Proof. intros k. apply R_refl. Qed.

Lemma keeps_cprintf (f : string) (a : list arg) : keeps R (cprintf f a).
Proof. intros k. apply R_print. Qed.

Lemma keeps_bind {A B : Type} (m : M A) (f : A -> M B) :
  keeps R m -> (forall a, keeps R (f a)) -> keeps R (bind m f).
Proof.
  intros Hm Hf k. specialize (Hm k). unfold bind.
  destruct (m k) as [a k1 | k1 | k1]; cbn [final] in *; try assumption.
  eapply R_trans; [exact Hm | apply Hf].
Qed.

Lemma keeps_if {A : Type} (b : bool) (m n : M A) :
  keeps R m -> keeps R n -> keeps R (if b then m else n).
Proof. now destruct b. Qed.

Lemma keeps_call_pa2page (pa : Z) : keeps R (call_pa2page pa).
Proof.
  intros k. unfold call_pa2page. destruct (pa2page _ _); apply R_refl.
Qed.

Lemma keeps_read_pp_ref (pp : nat) : keeps R (read_pp_ref pp).
Proof.
  intros k. unfold read_pp_ref. destruct (_ !! _); apply R_refl.
Qed.

Lemma keeps_do_while (fuel : nat) (body : Z -> M Z) :
  (forall p, keeps R (body p)) -> forall p, keeps R (do_while fuel body p).
Proof.
  intros Hbody. induction fuel as [|fuel IH]; intros p; cbn [do_while].
  - apply keeps_out_of_fuel.
  - apply keeps_bind; [apply Hbody|]. intros p'.
    apply keeps_if; [apply keeps_ret | apply IH].
Qed.

Lemma keeps_mon_help_loop (rows : list (string * string)) :
  keeps R (mon_help_loop rows).
Proof.
  induction rows as [|[n d] rows IH]; cbn [mon_help_loop].
  - apply keeps_ret.
  - apply keeps_bind; [apply keeps_cprintf | intros _; exact IH].
Qed.

Lemma keeps_dump_args (p : Z) (n : nat) : forall i, keeps R (dump_args p i n).
Proof.
  induction n as [|n IH]; intros i; cbn [dump_args].
  - apply keeps_ret.
  - apply keeps_bind; [apply keeps_get | intros a].
    apply keeps_bind; [apply keeps_cprintf | intros _; apply IH].
Qed.

Lemma keeps_dump_stack (p : Z) : keeps R (dump_stack p).
Proof.
  unfold dump_stack, J_ARG_N, J_NEXT_EBP.
  apply keeps_bind; [apply keeps_get | intros e].
  apply keeps_bind; [apply keeps_cprintf | intros _].
  apply keeps_bind; [apply keeps_dump_args | intros _; apply keeps_get].
Qed.

Lemma keeps_mon_help fuel argc argv tf : keeps R (mon_help fuel argc argv tf).
Proof.
  unfold mon_help.
  apply keeps_bind; [apply keeps_mon_help_loop | intros _; apply keeps_ret].
Qed.

Lemma keeps_mon_kerninfo fuel argc argv tf :
  keeps R (mon_kerninfo fuel argc argv tf).
Proof.
  unfold mon_kerninfo.
  repeat (apply keeps_bind; [apply keeps_cprintf | intros _]).
  apply keeps_ret.
Qed.

Lemma keeps_mon_page_status fuel argc argv tf :
  keeps R (mon_page_status fuel argc argv tf).
Proof.
  unfold mon_page_status. apply keeps_if.
  - repeat (apply keeps_bind; [apply keeps_cprintf | intros _]).
    apply keeps_ret.
  - apply keeps_bind; [apply keeps_call_pa2page | intros pp].
    apply keeps_bind; [apply keeps_read_pp_ref | intros r].
    apply keeps_bind; [|intros _; apply keeps_ret].
    apply keeps_if; apply keeps_cprintf.
Qed.

(** The two commands that write the page table keep what does not
    depend on it. *)
Section WritesPmap.

Hypothesis R_pmap : forall k pm, R k (set_pmap pm k).

Lemma keeps_mon_alloc_page fuel argc argv tf :
  keeps R (mon_alloc_page fuel argc argv tf).
Proof.
  unfold mon_alloc_page.
  apply keeps_bind.
  { intros k. unfold call_page_alloc.
    destruct (page_alloc (pmap k)) as [[rc pp] pm]. apply R_pmap. }
  intros r. apply keeps_bind; [|intros _; apply keeps_ret].
  apply keeps_if; [|apply keeps_cprintf].
  apply keeps_bind; [apply keeps_get | intros pa].
  apply keeps_bind; [apply keeps_cprintf | intros _].
  intros k. unfold incr_pp_ref. destruct (_ !! _); [apply R_pmap | apply R_refl].
Qed.

Lemma keeps_mon_free_page fuel argc argv tf :
  keeps R (mon_free_page fuel argc argv tf).
Proof.
  unfold mon_free_page. apply keeps_if.
  - repeat (apply keeps_bind; [apply keeps_cprintf | intros _]).
    apply keeps_ret.
  - apply keeps_bind; [apply keeps_call_pa2page | intros pp].
    apply keeps_bind; [apply keeps_read_pp_ref | intros r].
    apply keeps_bind; [|intros _; apply keeps_ret].
    apply keeps_if; [|apply keeps_cprintf].
    apply keeps_bind; [|intros _; apply keeps_cprintf].
    intros k. apply R_pmap.
Qed.

End WritesPmap.

(** The command that writes the static [info] keeps what does not depend
    on it. *)
Section WritesInfo.

Hypothesis R_info : forall k i, R k (set_info i k).

Lemma keeps_call_debuginfo_eip (a : Z) : keeps R (call_debuginfo_eip a).
Proof. intros k. apply R_info. Qed.

Lemma keeps_dump_backstrace_symbols (p : Z) :
  keeps R (dump_backstrace_symbols p).
Proof.
  unfold dump_backstrace_symbols, J_ARG_N, J_NEXT_EBP.
  apply keeps_bind; [apply keeps_get | intros i].
  apply keeps_bind; [apply keeps_cprintf | intros _].
  apply keeps_bind; [apply keeps_get | intros a].
  apply keeps_bind; [apply keeps_call_debuginfo_eip | intros _].
  apply keeps_get.
Qed.

Lemma keeps_mon_backtrace fuel argc argv tf :
  keeps R (mon_backtrace fuel argc argv tf).
Proof.
  unfold mon_backtrace, read_ebp, read_eip.
  apply keeps_bind; [apply keeps_get | intros p].
  apply keeps_bind; [apply keeps_get | intros e].
  apply keeps_bind; [apply keeps_cprintf | intros _].
  apply keeps_bind; [apply keeps_call_debuginfo_eip | intros _].
  apply keeps_bind; [apply keeps_cprintf | intros _].
  apply keeps_bind; [apply keeps_do_while, keeps_dump_stack | intros _].
  apply keeps_bind; [apply keeps_cprintf | intros _].
  apply keeps_bind; [apply keeps_get | intros p'].
  apply keeps_bind;
    [apply keeps_do_while, keeps_dump_backstrace_symbols | intros _].
  apply keeps_ret.
Qed.

End WritesInfo.

Lemma keeps_lookup (cmds : list Command) fuel argc argv tf :
  Forall (fun c => forall fuel argc argv tf,
            keeps R (func c fuel argc argv tf)) cmds ->
  keeps R (lookup cmds fuel argc argv tf).
Proof.
  induction 1 as [|c cmds Hc _ IH]; cbn [lookup].
  - apply keeps_bind; [apply keeps_cprintf | intros _; apply keeps_ret].
  - apply keeps_if; [apply Hc | apply IH].
Qed.

End Frame.

Lemma same_pmap_trans (k1 k2 k3 : Kernel) :
  same_pmap k1 k2 -> same_pmap k2 k3 -> same_pmap k1 k3.
Proof. unfold same_pmap. congruence. Qed.

Lemma same_info_trans (k1 k2 k3 : Kernel) :
  same_info k1 k2 -> same_info k2 k3 -> same_info k1 k3.
Proof. unfold same_info. congruence. Qed.

Lemma same_pmap_refl (k : Kernel) : same_pmap k k.
Proof. reflexivity. Qed.

Lemma same_pmap_print (k : Kernel) (out : list event) :
  same_pmap k (set_console (console k ++ out) k).
Proof. reflexivity. Qed.

Lemma same_pmap_info (k : Kernel) (i : Eipdebuginfo) :
  same_pmap k (set_info i k).
Proof. reflexivity. Qed.

Lemma same_info_refl (k : Kernel) : same_info k k.
Proof. reflexivity. Qed.

Lemma same_info_print (k : Kernel) (out : list event) :
  same_info k (set_console (console k ++ out) k).
Proof. reflexivity. Qed.

Lemma same_info_pmap (k : Kernel) (pm : Pmap) : same_info k (set_pmap pm k).
Proof. reflexivity. Qed.

Create HintDb frame.
#[local] Hint Resolve
  same_pmap_refl same_pmap_trans same_pmap_print same_pmap_info
  same_info_refl same_info_trans same_info_print same_info_pmap : frame.

Section RuncmdCases.

Context {E : Extern}.

(** The ways [runcmd] goes on a line: no token, too many, an unknown
    first token, or the handler of the row that bears the first token. *)
Lemma runcmd_cases (fuel : nat) (line : string) (tf : Trapframe) (k : Kernel)
    (P : Res Z -> Prop) :
  P (Ok 0 k) ->
  P (Ok 0 (too_many k)) ->
  P (Ok 0 (unknown_command (command_of line) k)) ->
  (forall (c : Command) (argc : Z) (argv : list string),
     In c commands -> name c = command_of line ->
     P (func c fuel argc argv tf k)) ->
  P (runcmd fuel line tf k).
Proof.
  intros Hnone Hmany Hunknown Hrow.
  destruct (tokenize line) as [buf offs | |] eqn:Htok.
  - assert (Hargv : argv_of (tokenize line) = Some (map (cstr_at buf) offs))
      by now rewrite Htok.
    rewrite (runcmd_parsed fuel line tf _ Hargv).
    destruct (map (cstr_at buf) offs) as [|a0 rest] eqn:Hmap; [exact Hnone|].
    replace (Z.of_nat (length (a0 :: rest)) =? 0) with false
      by (symmetry; apply Z.eqb_neq; cbn [length]; lia).
    assert (Hcmd : command_of line = a0)
      by (unfold command_of; now rewrite Hargv).
    destruct (tokenize_sound line _ Hargv) as (toks & Hsplit & Hstr & _).
    assert (Ha0 : nul_free a0 = true).
    { destruct toks as [|tok toks]; [discriminate|].
      cbn [map] in Hstr. injection Hstr as -> _.
      apply Split_tokens in Hsplit. inversion Hsplit as [|? ? [_ Ht] _].
      now apply token_nul_free. }
    rewrite lookup_first_match. cbn [argv_at nth].
    rewrite commands_first_match by assumption.
    destruct (find _ commands) as [c|] eqn:Hfind.
    + apply find_some in Hfind as [Hin Heq].
      apply String.eqb_eq in Heq. apply Hrow; congruence.
    + now rewrite <- Hcmd.
  - rewrite runcmd_too_many by assumption. exact Hmany.
  - now apply parse_fuel in Htok.
Qed.

End RuncmdCases.

(** X12: the page table and the free list can only change on a line
    whose command is alloc_page or free_page, and the static [info] only
    on a line whose command is backtrace; on every other line they are
    the same after [runcmd], however the command ends. *)
Theorem runcmd_writes_by_command :
  forall (E : Extern) (fuel : nat) (line : string) (tf : Trapframe)
         (k : Kernel),
    (String.eqb (command_of line) "alloc_page" = false ->
     String.eqb (command_of line) "free_page" = false ->
     pmap (final (runcmd fuel line tf k)) = pmap k) /\
    (String.eqb (command_of line) "backtrace" = false ->
     info (final (runcmd fuel line tf k)) = info k).
Proof.
  intros E fuel line tf k. split.
  - intros Ha Hf. apply String.eqb_neq in Ha, Hf.
    apply runcmd_cases with (P := fun r => same_pmap k (final r));
      try reflexivity.
    intros c argc argv Hin Hname.
    unfold commands in Hin. cbn [In] in Hin.
    destruct Hin as [<- | [<- | [<- | [<- | [<- | [<- | []]]]]]];
      cbn [func name] in *; try congruence.
    + apply keeps_mon_help; eauto with frame.
    + apply keeps_mon_kerninfo; eauto with frame.
    + apply keeps_mon_page_status; eauto with frame.
    + apply keeps_mon_backtrace; eauto with frame.
  - intros Hb. apply String.eqb_neq in Hb.
    apply runcmd_cases with (P := fun r => same_info k (final r));
      try reflexivity.
    intros c argc argv Hin Hname.
    unfold commands in Hin. cbn [In] in Hin.
    destruct Hin as [<- | [<- | [<- | [<- | [<- | [<- | []]]]]]];
      cbn [func name] in *; try congruence.
    + apply keeps_mon_help; eauto with frame.
    + apply keeps_mon_kerninfo; eauto with frame.
    + apply keeps_mon_alloc_page; eauto with frame.
    + apply keeps_mon_page_status; eauto with frame.
    + apply keeps_mon_free_page; eauto with frame.
Qed.

(** ** The read-eval loop over several lines *)

Section Loop.

Context {E : Extern}.

(** A blank line is a silent no-op. *)
Lemma runcmd_blank (fuel : nat) (line : string) (tf : Trapframe) (k : Kernel) :
  forallb ws_char (list_ascii_of_string line) = true ->
  runcmd fuel line tf k = Ok 0 k.
Proof.
  intros Hws. apply Split_blank in Hws.
  destruct (tokenize_Split line [] Hws) as [Hargv _].
  rewrite (runcmd_parsed fuel line tf [] (Hargv (Nat.le_0_l 15))).
  reflexivity.
Qed.

Lemma monitor_loop_idle (fuel : nat) (lines : list (option string))
    (tf : Trapframe) : forall k : Kernel,
  monitor_loop fuel lines tf k =
    monitor_loop fuel (List.filter (fun l => negb (idle l)) lines) tf k.
Proof.
  induction lines as [|[buf|] lines IH]; intros k; cbn [List.filter idle negb].
  - reflexivity.
  - destruct (forallb ws_char (list_ascii_of_string buf)) eqn:Hws;
      cbn [negb monitor_loop].
    + rewrite runcmd_blank by assumption. cbn. apply IH.
    + destruct (runcmd fuel buf tf k) as [r k1 | k1 | k1]; try reflexivity.
      destruct (r <? 0); [reflexivity | apply IH].
  - cbn [monitor_loop]. apply IH.
Qed.

End Loop.

(** X10: a null result of [readline] and a line of whitespace only have
    no effect at all on [monitor]: dropping them from the input gives the
    same state, console included. *)
Theorem monitor_skips_idle_lines :
  forall (E : Extern) (fuel : nat) (lines : list (option string))
         (tf : Trapframe) (k : Kernel),
    monitor fuel lines tf k =
      monitor fuel (List.filter (fun l => negb (idle l)) lines) tf k.
Proof.
  intros E fuel lines tf k. unfold monitor.
  destruct (bind _ _ k) as [u k1 | k1 | k1]; try reflexivity.
  apply monitor_loop_idle.
Qed.

(** ** The help and page commands *)

Section MoreCommands.

Context {E : Extern}.

Lemma emit_emit (a b : list event) (k : Kernel) :
  emit b (emit a k) = emit (a ++ b) k.
Proof. unfold emit, set_console. cbn. now rewrite <- app_assoc. Qed.

Lemma mon_help_loop_run (rows : list (string * string)) : forall k : Kernel,
  mon_help_loop rows k =
    Ok tt (emit (map (fun r => Cprintf "%s - %s\n"
                                 [ArgStr (Some (fst r)); ArgStr (Some (snd r))])
                     rows) k).
Proof.
  induction rows as [|[n d] rows IH]; intros k; cbn [mon_help_loop map].
  - unfold ret, emit, set_console. rewrite app_nil_r. now destruct k.
  - unfold bind, cprintf. rewrite IH. fold (emit [Cprintf "%s - %s\n"
      [ArgStr (Some n); ArgStr (Some d)]] k). now rewrite emit_emit.
Qed.

(** [alloc_page] when [page_alloc] succeeds with a descriptor of the
    table. *)
Lemma mon_alloc_page_ok fuel argc argv tf (k : Kernel) (pp : nat)
    (pm : Pmap) (pg : PageInfo) :
  page_alloc (pmap k) = (0, pp, pm) -> pages pm !! pp = Some pg ->
  mon_alloc_page fuel argc argv tf k =
    Ok 0 (set_pmap
            {| pages := <[pp := {| pp_link := pp_link pg;
                                    pp_ref := uint16 (pp_ref pg + 1) |}]> (pages pm);
               page_free_list := page_free_list pm |}
            (emit [Cprintf "    0x%x\n" [ArgInt (page2pa pm pp)]] k)).
Proof.
  intros Halloc Hpg.
  unfold mon_alloc_page, bind, call_page_alloc, incr_pp_ref, get, cprintf.
  rewrite Halloc. cbn. now rewrite Hpg.
Qed.

End MoreCommands.

(** X1: [help] prints one line per row of the command table, in table
    order, each with the name and the description of the row, returns 0
    and changes nothing else, whatever its arguments. *)
Theorem mon_help_lists_commands :
  forall (E : Extern) (fuel : nat) (argc : Z) (argv : list string)
         (tf : Trapframe) (k : Kernel),
    mon_help fuel argc argv tf k = Ok 0 (emit (map help_line commands) k) /\
    length (map help_line commands) = length commands /\
    List.NoDup (map name commands).
Proof.
  intros E fuel argc argv tf k. split; [|split].
  - unfold mon_help, bind. rewrite mon_help_loop_run. reflexivity.
  - apply length_map.
  - unfold commands. cbn [map name].
    repeat (apply List.NoDup_cons; [cbn [In]; intuition discriminate|]).
    apply List.NoDup_nil.
Qed.

(** X2: [alloc_page] calls [page_alloc] once.  On return code 0 with a
    descriptor of the table it prints the page's address, adds one to
    that descriptor's 16-bit reference count and touches no other
    descriptor nor the free list; on any other return code it prints the
    failure line and writes no reference count.  It returns 0 in both
    cases. *)
Theorem mon_alloc_page_takes_reference :
  forall (E : Extern) (fuel : nat) (argc : Z) (argv : list string)
         (tf : Trapframe) (k : Kernel) (rc : Z) (pp : nat) (pm : Pmap),
    page_alloc (pmap k) = (rc, pp, pm) ->
    (rc = 0 ->
     forall pg, pages pm !! pp = Some pg ->
       exists k',
         mon_alloc_page fuel argc argv tf k = Ok 0 k' /\
         console k' = console k ++ [Cprintf "    0x%x\n" [ArgInt (page2pa pm pp)]] /\
         ref_count (pmap k') pp = Some (uint16 (pp_ref pg + 1)) /\
         (forall q, q <> pp -> pages (pmap k') !! q = pages pm !! q) /\
         page_free_list (pmap k') = page_free_list pm) /\
    (rc <> 0 ->
     mon_alloc_page fuel argc argv tf k =
       Ok 0 (says "    Page allocation failed\n" (set_pmap pm k))).
Proof.
  intros E fuel argc argv tf k rc pp pm Halloc. split.
  - intros -> pg Hpg. eexists.
    split; [eapply mon_alloc_page_ok; eassumption|].
    cbn [console pmap set_pmap emit set_console pages page_free_list].
    repeat split.
    + unfold ref_count. cbn [pages].
      rewrite list_lookup_insert_eq; [reflexivity|].
      now apply lookup_lt_Some in Hpg.
    + intros q Hq. now apply list_lookup_insert_ne.
  - intros Hrc. apply Z.eqb_neq in Hrc.
    unfold mon_alloc_page, bind, call_page_alloc.
    rewrite Halloc. cbn. now rewrite Hrc.
Qed.

(** On the concrete kernel the free list hands out page 3, whose count
    goes from 0 to 1. *)
Lemma mon_alloc_page_takes_reference_witness :
  exists k',
    @mon_alloc_page Model.ext 0 1 ["alloc_page"] 0 Model.k0 = Ok 0 k' /\
    console k' = [Cprintf "    0x%x\n" [ArgInt 12288]] /\
    ref_count (pmap k') 3 = Some 1.
Proof.
  destruct (proj1 (mon_alloc_page_takes_reference Model.ext 0 1 ["alloc_page"]
                     0 Model.k0 0 3%nat _ eq_refl) eq_refl
              {| pp_link := None; pp_ref := 0 |} eq_refl)
    as (k' & Hrun & Hout & Href & _).
  exists k'. repeat split; assumption.
Defined.

(** X3: after [alloc_page] has handed out a descriptor whose count was
    below 65535, [page_status] on an address that resolves to that
    descriptor reports Allocated. *)
Theorem alloc_page_then_page_status :
  forall (E : Extern) (fuel : nat) (argc : Z) (argv0 argv : list string)
         (tf : Trapframe) (k : Kernel) (pp : nat) (pm : Pmap) (pg : PageInfo),
    page_alloc (pmap k) = (0, pp, pm) -> pages pm !! pp = Some pg ->
    0 <= pp_ref pg < 65535 ->
    exists k1,
      mon_alloc_page fuel argc argv0 tf k = Ok 0 k1 /\
      (pa2page (pmap k1) (addr_arg argv) = Some pp ->
       mon_page_status fuel 2 argv tf k1 = Ok 0 (says "    Allocated\n" k1)).
Proof.
  intros E fuel argc argv0 argv tf k pp pm pg Halloc Hpg Hrange.
  eexists. split; [eapply mon_alloc_page_ok; eassumption|].
  intros Hpa.
  rewrite mon_page_status_ok with (pp := pp) (r := uint16 (pp_ref pg + 1));
    [| exact Hpa |].
  - unfold uint16. rewrite Z.mod_small by lia.
    replace (pp_ref pg + 1 >? 0) with true by (symmetry; apply Z.gtb_lt; lia).
    reflexivity.
  - unfold ref_count. cbn [pmap set_pmap pages].
    rewrite list_lookup_insert_eq; [reflexivity|].
    now apply lookup_lt_Some in Hpg.
Qed.

(** On the concrete kernel: alloc_page, then page_status on the address
    it printed. *)
Lemma alloc_page_then_page_status_witness :
  exists k1,
    @mon_alloc_page Model.ext 0 1 ["alloc_page"] 0 Model.k0 = Ok 0 k1 /\
    @mon_page_status Model.ext 0 2 ["page_status"; "0x3000"] 0 k1 =
      Ok 0 (says "    Allocated\n" k1).
Proof.
  destruct (alloc_page_then_page_status Model.ext 0 1 ["alloc_page"]
              ["page_status"; "0x3000"] 0 Model.k0 3%nat _
              {| pp_link := None; pp_ref := 0 |} eq_refl eq_refl
              (conj (Z.le_refl 0) eq_refl))
    as (k1 & Hrun & Hstatus).
  exists k1. split; [exact Hrun|].
  apply Hstatus. injection Hrun as <-. reflexivity.
Defined.

(** X4: after [free_page] has released a descriptor held once (and
    [page_decref] has brought its count to 0), [page_status] on the same
    address reports free and a second [free_page] on it fails and
    changes nothing. *)
Theorem free_page_then_status_and_refree :
  forall (E : Extern) (fuel : nat) (argv : list string) (tf : Trapframe)
         (k : Kernel) (pp : nat),
    pa2page (pmap k) (addr_arg argv) = Some pp ->
    ref_count (pmap k) pp = Some 1 ->
    ref_count (page_decref (pmap k) pp) pp = Some 0 ->
    pa2page (page_decref (pmap k) pp) (addr_arg argv) = Some pp ->
    exists k1,
      mon_free_page fuel 2 argv tf k = Ok 0 k1 /\
      mon_page_status fuel 2 argv tf k1 = Ok 0 (says "    free\n" k1) /\
      mon_free_page fuel 2 argv tf k1 = Ok 0 (says "   failed\n" k1).
Proof.
  intros E fuel argv tf k pp Hpa Href Hdec Hpa'.
  set (k1 := says "    Page freed successfully!\n"
               (set_pmap (page_decref (pmap k) pp) k)).
  exists k1. split.
  - now rewrite (mon_free_page_ok fuel argv tf k pp 1 Hpa Href).
  - split.
    + now rewrite (mon_page_status_ok fuel argv tf k1 pp 0 Hpa' Hdec).
    + now rewrite (mon_free_page_ok fuel argv tf k1 pp 0 Hpa' Hdec).
Qed.

(** On the concrete kernel, for page 1. *)
Lemma free_page_then_status_and_refree_witness :
  exists k1,
    @mon_free_page Model.ext 0 2 ["free_page"; "0x1000"] 0 Model.k0 = Ok 0 k1 /\
    @mon_page_status Model.ext 0 2 ["page_status"; "0x1000"] 0 k1 =
      Ok 0 (says "    free\n" k1) /\
    @mon_free_page Model.ext 0 2 ["free_page"; "0x1000"] 0 k1 =
      Ok 0 (says "   failed\n" k1).
Proof.
  destruct (free_page_then_status_and_refree Model.ext 0
              ["free_page"; "0x1000"] 0 Model.k0 1%nat
              eq_refl eq_refl eq_refl eq_refl)
    as (k1 & Hfree & Hstatus & Hagain).
  exists k1. repeat split; assumption.
Defined.

(** X5: with any argument count other than 2, [page_status] and
    [free_page] print their usage lines (two and three of them), return
    0, and neither parse an address nor look up or change a descriptor:
    nothing but the console changes. *)
Theorem page_commands_usage :
  forall (E : Extern) (fuel : nat) (argc : Z) (argv : list string)
         (tf : Trapframe) (k : Kernel),
    argc <> 2 ->
    mon_page_status fuel argc argv tf k =
      Ok 0 (emit [Cprintf "Usage: page status [ADDR]\n" [];
                  Cprintf "    Address must be aligned in 4KB\n" []] k) /\
    mon_free_page fuel argc argv tf k =
      Ok 0 (emit [Cprintf "Usage: free page [ADDR]\n" [];
                  Cprintf "   Address must be aligned in 4KB\n" [];
                  Cprintf "    Please make sure that the page is currently mounted 1 time\n" []] k).
Proof.
  intros E fuel argc argv tf k Hargc. apply Z.eqb_neq in Hargc.
  unfold mon_page_status, mon_free_page. rewrite Hargc. cbn [negb].
  unfold bind, cprintf, ret, emit, set_console. cbn.
  split; do 2 f_equal; rewrite <- ?app_assoc; reflexivity.
Qed.

(** The two commands typed without an address. *)
Lemma page_commands_usage_witness :
  console (final (@runcmd Model.ext 0 "page_status" 0 Model.k0)) =
    [Cprintf "Usage: page status [ADDR]\n" [];
     Cprintf "    Address must be aligned in 4KB\n" []] /\
  pmap (final (@runcmd Model.ext 0 "free_page 0x1000 0x2000" 0 Model.k0)) =
    Model.pm0.
Proof.
  pose proof (page_commands_usage Model.ext 0 1 ["page_status"] 0 Model.k0
                ltac:(discriminate)) as [H1 _].
  pose proof (page_commands_usage Model.ext 0 3
                ["free_page"; "0x1000"; "0x2000"] 0 Model.k0
                ltac:(discriminate)) as [_ H2].
  split.
  - change (@runcmd Model.ext 0 "page_status" 0 Model.k0)
      with (@mon_page_status Model.ext 0 1 ["page_status"] 0 Model.k0).
    now rewrite H1.
  - change (@runcmd Model.ext 0 "free_page 0x1000 0x2000" 0 Model.k0)
      with (@mon_free_page Model.ext 0 3 ["free_page"; "0x1000"; "0x2000"]
              0 Model.k0).
    now rewrite H2.
Defined.

(** ** More on the tokenizer *)

Lemma zeroed_length (l : list ascii) : length (zeroed l) = length l.
Proof.
  induction l as [|c l IH]; [reflexivity|]. cbn [zeroed].
  destruct (Ascii.eqb c NUL); [reflexivity|].
  destruct (strchr WHITESPACE c); cbn [length]; now rewrite IH.
Qed.

Lemma zeroed_nth (l : list ascii) : forall (i : nat) (c : ascii),
  nth_error l i = Some c ->
  nth_error (zeroed l) i = Some c \/
  (ws_char c = true /\ nth_error (zeroed l) i = Some NUL).
Proof.
  induction l as [|d l IH]; intros i c Hi; [now destruct i|].
  cbn [zeroed]. destruct (Ascii.eqb d NUL) eqn:Hnul; [now left|].
  destruct (strchr WHITESPACE d) eqn:Hws.
  - destruct i as [|i]; cbn [nth_error] in *; [|now apply IH].
    injection Hi as <-. right. unfold ws_char. now rewrite Hnul, Hws.
  - destruct i as [|i]; cbn [nth_error] in *; [now left | now apply IH].
Qed.

(** The buffer a finished parse leaves is the line with its whitespace
    zeroed. *)
Lemma tokenize_buffer (line : string) (buf : list ascii) (offs : list nat) :
  tokenize line = Parsed buf offs ->
  buf = zeroed (list_ascii_of_string line).
Proof.
  unfold tokenize. intros Hparse.
  destruct (Split_total (list_ascii_of_string line)) as [toks Htoks].
  destruct (parse_Split _ _ Htoks (S (length (list_ascii_of_string line))) [] [])
    as [H1 H2]; [lia | cbn [length]; lia |].
  cbn [length] in H1, H2.
  destruct (Nat.le_gt_cases (length toks) 15) as [Hle | Hgt].
  - destruct H1 as [offs' [_ Heq]]; [lia|]. rewrite Heq in Hparse.
    now injection Hparse as <- _.
  - rewrite H2 in Hparse by lia. discriminate.
Qed.

Lemma Split_join (toks : list (list ascii)) :
  forallb token_ok toks = true -> Split (join_sp toks) toks.
Proof.
  induction toks as [|tok toks IH]; intros Hok.
  - now constructor.
  - cbn [forallb] in Hok. apply andb_true_iff in Hok as [Htok Hrest].
    assert (Hne : tok <> []) by (destruct tok; [discriminate | easy]).
    assert (Hchars : forallb tok_char tok = true)
      by (destruct tok; [discriminate | exact Htok]).
    destruct toks as [|tok2 toks].
    + cbn [join_sp]. rewrite <- (app_nil_r tok) at 1.
      constructor; [assumption | assumption | reflexivity |].
      now constructor.
    + change (join_sp (tok :: tok2 :: toks))
        with (tok ++ " "%char :: join_sp (tok2 :: toks)).
      constructor; [assumption | assumption | reflexivity |].
      constructor; [reflexivity | now apply IH].
Qed.

(** X6: for every line [runcmd] refuses the line with the Too many
    arguments message exactly when the line has more than 15 tokens, and
    otherwise hands every token to the dispatcher: 15, not the 16 of the
    message, is the number of arguments that fit. *)
Theorem runcmd_argument_limit :
  forall line : string,
    exists toks : list (list ascii),
      Split (list_ascii_of_string line) toks /\
      (tokenize line = TooMany <-> (15 < length toks)%nat) /\
      ((length toks <= 15)%nat ->
       argv_of (tokenize line) = Some (map string_of_list_ascii toks)) /\
      ((15 < length toks)%nat ->
       forall (E : Extern) (fuel : nat) (tf : Trapframe) (k : Kernel),
         runcmd fuel line tf k = Ok 0 (too_many k)).
Proof.
  intros line.
  destruct (Split_total (list_ascii_of_string line)) as [toks Htoks].
  destruct (tokenize_Split line toks Htoks) as [H1 H2].
  exists toks. split; [assumption|]. split; [|split].
  - split; [|exact H2]. intros Hmany.
    destruct (Nat.le_gt_cases (length toks) 15) as [Hle | Hgt]; [|assumption].
    specialize (H1 Hle). rewrite Hmany in H1. discriminate.
  - exact H1.
  - intros Hgt E fuel tf k. now apply runcmd_too_many, H2.
Qed.

(** X7: the parsing loop of [runcmd] writes the line buffer only where
    it holds whitespace: the buffer keeps its length, every character is
    either as it was or a whitespace character replaced by 0, and at most
    15 argument pointers are stored, so that the closing null pointer
    fits in the 16 slots of [argv]. *)
Theorem tokenizer_overwrites_only_whitespace :
  forall (line : string) (buf : list ascii) (offs : list nat),
    tokenize line = Parsed buf offs ->
    length buf = length (list_ascii_of_string line) /\
    (forall (i : nat) (c : ascii),
       nth_error (list_ascii_of_string line) i = Some c ->
       nth_error buf i = Some c \/
       (ws_char c = true /\ nth_error buf i = Some NUL)) /\
    Z.of_nat (length offs) < MAXARGS.
Proof.
  intros line buf offs Hparse.
  rewrite (tokenize_buffer line buf offs Hparse).
  split; [apply zeroed_length|]. split; [apply zeroed_nth|].
  assert (Hargv : argv_of (tokenize line) = Some (map (cstr_at buf) offs))
    by now rewrite Hparse.
  destruct (tokenize_sound line _ Hargv) as (toks & _ & Hmap & Hle).
  apply (f_equal (@length string)) in Hmap. rewrite !length_map in Hmap.
  unfold MAXARGS. lia.
Qed.

(** The line of the example: the spaces become 0, the rest stays. *)
Lemma tokenizer_overwrites_only_whitespace_witness :
  length (zeroed (list_ascii_of_string "  free_page   0x1000 ")) = 21%nat /\
  Z.of_nat (length [2%nat; 14%nat]) < MAXARGS.
Proof.
  pose proof (tokenizer_overwrites_only_whitespace "  free_page   0x1000 "
                (zeroed (list_ascii_of_string "  free_page   0x1000 "))
                [2%nat; 14%nat] eq_refl) as (Hlen & _ & Hargs).
  split; [exact Hlen | exact Hargs].
Defined.

(** X8: writing up to 15 well-formed tokens on a line, a space between
    two, and tokenizing that line gives the tokens back, in order. *)
Theorem tokenize_join :
  forall toks : list (list ascii),
    forallb token_ok toks = true -> (length toks <= 15)%nat ->
    argv_of (tokenize (string_of_list_ascii (join_sp toks))) =
      Some (map string_of_list_ascii toks).
Proof.
  intros toks Hok Hle.
  apply (tokenize_Split _ toks); [|assumption].
  rewrite list_ascii_of_string_of_list_ascii. now apply Split_join.
Qed.

Lemma tokenize_join_witness :
  argv_of (tokenize "free_page 0x1000") = Some ["free_page"; "0x1000"].
Proof.
  exact (tokenize_join
           [list_ascii_of_string "free_page"; list_ascii_of_string "0x1000"]
           eq_refl ltac:(cbn [length]; lia)).
Defined.

(** ** When the commands return *)

Section Returns.

Context {E : Extern}.







End Returns.



